(** * The fine-tuning script [scripts/pt.py] of dl-classifier

    A shallow embedding of the script's functions, followed by the
    properties established for them.  Python exceptions are modelled by
    the [result] type, dictionaries by [gmap], the objects of the model
    zoo by the tree type [obj], and the calls into the tensor library by
    the fields of the interface [Torch]. *)

From Stdlib Require Import ZArith QArith List Ascii String Lia.
From Stdlib Require Import DecimalString DecimalZ.
From stdpp Require Import gmap strings.
Import ListNotations.

Local Open Scope string_scope.
Local Open Scope Z_scope.
Local Open Scope list_scope.

Set Warnings "-register-all".

(** ** Exceptions *)

Inductive exn : Type :=
| AttributeError (attr : string)
| IndexError
| TypeError
| ZeroDivisionError
| FileNotFoundError
| UnpicklingError
| RuntimeError (reason : string)
| ValueError (reason : string).

Inductive result (A : Type) : Type :=
| Ok (a : A)
| Raise (e : exn).

Arguments Ok {A} a.
Arguments Raise {A} e.

Definition bind {A B : Type} (r : result A) (k : A -> result B) : result B :=
  match r with
  | Ok a => k a
  | Raise e => Raise e
  end.

Declare Scope py_scope.
Delimit Scope py_scope with py.
Notation "'let*' x ':=' c 'in' k" := (bind c (fun x => k))
  (at level 10, x name, c at level 100, k at level 200) : py_scope.
Notation "'let*' ' p ':=' c 'in' k" := (bind c (fun p => k))
  (at level 10, p pattern, c at level 100, k at level 200) : py_scope.
Local Open Scope py_scope.

Definition is_ok {A : Type} (r : result A) : bool :=
  match r with Ok _ => true | Raise _ => false end.

(** ** [get_input_size] and [determine_inception] *)

Definition get_input_size (model_type : string) : Z :=
  if String.eqb "inception_v3" model_type then 299 else 224.

Definition determine_inception (model_type : string) : bool :=
  if String.eqb model_type "inception_v3" then true else false.

(** ** Seeding, from the script's entry point

    [now_ms] is the value [get_ms_past_epoch()] returns when it is
    called; the entry point calls it only on the second branch. *)

Definition main_seed (args_seed now_ms : Z) : Z :=
  if args_seed >? 0 then args_seed else now_ms.

(** ** Objects of the model zoo

    A network of [torchvision.models] is a tree of attributes.  Layers
    that own parameters record where the parameters come from and
    whether they receive gradients.  [Features] stands for a block of
    feature layers whose shape the script never inspects, [Op] for a
    layer without parameters, [Int] for a plain integer attribute. *)

Inductive init : Type := Pretrained | Random.

Record param : Type := Param { origin : init; requires_grad : bool }.

Inductive obj : Type :=
| Linear (in_features out_features : Z) (p : param)
| Conv2d (in_channels out_channels : Z) (p : param)
| Features (p : param)
| Op (name : string)
| Int (z : Z)
| Sequential (children : list obj)
| Net (cls : string) (attrs : list (string * obj)).

Fixpoint assoc_get {A : Type} (k : string) (l : list (string * A)) : option A :=
  match l with
  | [] => None
  | (k', v) :: l' => if String.eqb k k' then Some v else assoc_get k l'
  end.

Fixpoint assoc_set {A : Type} (k : string) (v : A) (l : list (string * A))
  : list (string * A) :=
  match l with
  | [] => [(k, v)]
  | (k', v') :: l' =>
      if String.eqb k k' then (k, v) :: l' else (k', v') :: assoc_set k v l'
  end.

(** [o.name] *)
Definition getattr (o : obj) (name : string) : result obj :=
  match o with
  | Net _ attrs =>
      match assoc_get name attrs with
      | Some v => Ok v
      | None => Raise (AttributeError name)
      end
  | Linear i _ _ =>
      if String.eqb name "in_features" then Ok (Int i)
      else Raise (AttributeError name)
  | _ => Raise (AttributeError name)
  end.

(** [o.name = v] *)
Definition setattr (o : obj) (name : string) (v : obj) : result obj :=
  match o with
  | Net c attrs => Ok (Net c (assoc_set name v attrs))
  | _ => Raise (AttributeError name)
  end.

(** [o[i]] *)
Definition getitem (o : obj) (i : nat) : result obj :=
  match o with
  | Sequential l =>
      match l !! i with
      | Some v => Ok v
      | None => Raise IndexError
      end
  | _ => Raise TypeError
  end.

(** [o[i] = v] *)
Definition setitem (o : obj) (i : nat) (v : obj) : result obj :=
  match o with
  | Sequential l =>
      if (i <? length l)%nat then Ok (Sequential (<[i:=v]> l))
      else Raise IndexError
  | _ => Raise TypeError
  end.

Definition as_int (o : obj) : result Z :=
  match o with
  | Int z => Ok z
  | _ => Raise TypeError
  end.

(** [nn.Linear(i, o)] and [nn.Conv2d(i, o, ...)]: new layers, randomly
    initialised, with gradients enabled. *)
Definition nn_Linear (i o : Z) : obj := Linear i o (Param Random true).
Definition nn_Conv2d (i o : Z) : obj := Conv2d i o (Param Random true).

(** ** The constructors of [torchvision.models] the script calls

    Each network lists its attributes in definition order.  The feature
    layers are folded into [Features] entries; the classification heads
    are spelled out, with the widths the library gives them (1000
    classes).  The flag [pretrained] selects where the weights come
    from; fetching the pretrained weights is taken to succeed. *)

Module models.

Definition weights (pretrained : bool) : param :=
  Param (if pretrained then Pretrained else Random) true.

Definition ResNet (fc_in : Z) (pretrained : bool) : obj :=
  let w := weights pretrained in
  Net "ResNet"
    [("conv1", Features w); ("bn1", Features w); ("relu", Op "ReLU");
     ("maxpool", Op "MaxPool2d"); ("layer1", Features w);
     ("layer2", Features w); ("layer3", Features w); ("layer4", Features w);
     ("avgpool", Op "AdaptiveAvgPool2d"); ("fc", Linear fc_in 1000 w)].

Definition resnet18 := ResNet 512.
Definition resnet34 := ResNet 512.
Definition resnet50 := ResNet 2048.
Definition resnet101 := ResNet 2048.
Definition resnet152 := ResNet 2048.
Definition resnext50_32x4d := ResNet 2048.
Definition resnext101_32x8d := ResNet 2048.
Definition wide_resnet50_2 := ResNet 2048.
Definition wide_resnet101_2 := ResNet 2048.

Definition alexnet (pretrained : bool) : obj :=
  let w := weights pretrained in
  Net "AlexNet"
    [("features", Features w); ("avgpool", Op "AdaptiveAvgPool2d");
     ("classifier",
      Sequential [Op "Dropout"; Linear 9216 4096 w; Op "ReLU"; Op "Dropout";
                  Linear 4096 4096 w; Op "ReLU"; Linear 4096 1000 w])].

Definition VGG (pretrained : bool) : obj :=
  let w := weights pretrained in
  Net "VGG"
    [("features", Features w); ("avgpool", Op "AdaptiveAvgPool2d");
     ("classifier",
      Sequential [Linear 25088 4096 w; Op "ReLU"; Op "Dropout";
                  Linear 4096 4096 w; Op "ReLU"; Op "Dropout";
                  Linear 4096 1000 w])].

Definition vgg11 := VGG.
Definition vgg11_bn := VGG.
Definition vgg13 := VGG.
Definition vgg13_bn := VGG.
Definition vgg16 := VGG.
Definition vgg16_bn := VGG.
Definition vgg19 := VGG.
Definition vgg19_bn := VGG.

Definition SqueezeNet (pretrained : bool) : obj :=
  let w := weights pretrained in
  Net "SqueezeNet"
    [("num_classes", Int 1000); ("features", Features w);
     ("classifier",
      Sequential [Op "Dropout"; Conv2d 512 1000 w; Op "ReLU";
                  Op "AdaptiveAvgPool2d"])].

Definition squeezenet1_0 := SqueezeNet.
Definition squeezenet1_1 := SqueezeNet.

Definition DenseNet (classifier_in : Z) (pretrained : bool) : obj :=
  let w := weights pretrained in
  Net "DenseNet"
    [("features", Features w); ("classifier", Linear classifier_in 1000 w)].

Definition densenet121 := DenseNet 1024.
Definition densenet161 := DenseNet 2208.
Definition densenet169 := DenseNet 1664.
Definition densenet201 := DenseNet 1920.

(** The auxiliary classifiers of GoogLeNet.  They exist while the
    network is built; [googlenet] deletes them after loading the
    pretrained weights, and keeps them otherwise. *)
Definition GoogLeNetAux (w : param) : obj :=
  Net "InceptionAux"
    [("conv", Features w); ("fc1", Linear 2048 1024 w);
     ("fc2", Linear 1024 1000 w)].

Definition googlenet (pretrained : bool) : obj :=
  let w := weights pretrained in
  Net "GoogLeNet"
    ([("conv1", Features w); ("conv2", Features w); ("conv3", Features w);
      ("inception3", Features w); ("inception4", Features w);
      ("inception5", Features w)]
     ++ (if pretrained then []
         else [("aux1", GoogLeNetAux w); ("aux2", GoogLeNetAux w)])
     ++ [("avgpool", Op "AdaptiveAvgPool2d"); ("dropout", Op "Dropout");
         ("fc", Linear 1024 1000 w)]).

Definition ShuffleNetV2 (pretrained : bool) : obj :=
  let w := weights pretrained in
  Net "ShuffleNetV2"
    [("conv1", Features w); ("maxpool", Op "MaxPool2d");
     ("stage2", Features w); ("stage3", Features w); ("stage4", Features w);
     ("conv5", Features w); ("fc", Linear 1024 1000 w)].

Definition shufflenet_v2_x0_5 := ShuffleNetV2.
Definition shufflenet_v2_x1_0 := ShuffleNetV2.

Definition mobilenet_v2 (pretrained : bool) : obj :=
  let w := weights pretrained in
  Net "MobileNetV2"
    [("features", Features w);
     ("classifier", Sequential [Op "Dropout"; Linear 1280 1000 w])].

Definition MNASNet (pretrained : bool) : obj :=
  let w := weights pretrained in
  Net "MNASNet"
    [("layers", Features w);
     ("classifier", Sequential [Op "Dropout"; Linear 1280 1000 w])].

Definition mnasnet0_5 := MNASNet.
Definition mnasnet1_0 := MNASNet.

Definition inception_v3 (pretrained : bool) : obj :=
  let w := weights pretrained in
  Net "Inception3"
    [("Conv2d_1a_3x3", Features w); ("Conv2d_2a_3x3", Features w);
     ("Conv2d_2b_3x3", Features w); ("Conv2d_3b_1x1", Features w);
     ("Conv2d_4a_3x3", Features w); ("Mixed_5", Features w);
     ("Mixed_6", Features w);
     ("AuxLogits",
      Net "InceptionAux"
        [("conv0", Features w); ("conv1", Features w);
         ("fc", Linear 768 1000 w)]);
     ("Mixed_7", Features w); ("fc", Linear 2048 1000 w)].

End models.

(** The width of the scores a network computes for one image: the output
    width of the layer its class applies last among those with
    parameters. *)
Definition out_width (layer : obj) : result Z :=
  match layer with
  | Linear _ o _ => Ok o
  | Conv2d _ o _ => Ok o
  | _ => Raise TypeError
  end.

Definition final_layer (model : obj) : result obj :=
  match model with
  | Net cls _ =>
      if String.eqb cls "ResNet" || String.eqb cls "GoogLeNet"
         || String.eqb cls "ShuffleNetV2" || String.eqb cls "Inception3"
      then getattr model "fc"
      else if String.eqb cls "DenseNet" then getattr model "classifier"
      else if String.eqb cls "AlexNet" || String.eqb cls "VGG" then
        let* c := getattr model "classifier" in getitem c 6
      else if String.eqb cls "SqueezeNet" || String.eqb cls "MobileNetV2"
              || String.eqb cls "MNASNet" then
        let* c := getattr model "classifier" in getitem c 1
      else Raise TypeError
  | _ => Raise TypeError
  end.

Definition final_width (model : obj) : result Z :=
  let* l := final_layer model in out_width l.


(** ** [set_parameter_requires_grad] *)

Definition frozen (p : param) : param := Param (origin p) false.

Fixpoint freeze (o : obj) : obj :=
  match o with
  | Linear i w p => Linear i w (frozen p)
  | Conv2d i w p => Conv2d i w (frozen p)
  | Features p => Features (frozen p)
  | Op name => Op name
  | Int z => Int z
  | Sequential children => Sequential (map freeze children)
  | Net cls attrs => Net cls (map (fun '(k, v) => (k, freeze v)) attrs)
  end.

Definition set_parameter_requires_grad (model : obj) (feature_extracting : bool)
  : obj :=
  if feature_extracting then freeze model else model.

(** ** [create_model]

    The three shapes of head replacement the branches use. *)

(** [model.fc = nn.Linear(model.fc.in_features, num_classes)] *)
Definition replace_fc (model : obj) (num_classes : Z) : result obj :=
  let* fc := getattr model "fc" in
  let* i := getattr fc "in_features" in
  let* i := as_int i in
  setattr model "fc" (nn_Linear i num_classes).

(** [model.classifier = nn.Linear(model.classifier.in_features, num_classes)] *)
Definition replace_classifier (model : obj) (num_classes : Z) : result obj :=
  let* c := getattr model "classifier" in
  let* i := getattr c "in_features" in
  let* i := as_int i in
  setattr model "classifier" (nn_Linear i num_classes).

(** [model.classifier[k] = layer]: the assignment goes through to the
    sequence the model holds. *)
Definition set_classifier_item (model : obj) (k : nat) (layer : obj)
  : result obj :=
  let* c := getattr model "classifier" in
  let* c' := setitem c k layer in
  setattr model "classifier" c'.

(** [model.classifier[k] = nn.Linear(model.classifier[k].in_features, num_classes)] *)
Definition replace_classifier_item (model : obj) (k : nat) (num_classes : Z)
  : result obj :=
  let* c := getattr model "classifier" in
  let* l := getitem c k in
  let* i := getattr l "in_features" in
  let* i := as_int i in
  set_classifier_item model k (nn_Linear i num_classes).

(** The branches of [create_model], in source order.  Moving the model
    to the device leaves the tree as it is. *)
Definition create_model (model_type : string) (num_classes : Z)
    (feature_extract pretrained : bool) : result obj :=
  let prep (model : obj) := set_parameter_requires_grad model feature_extract in
  if String.eqb "resnet18" model_type then
    replace_fc (prep (models.resnet18 pretrained)) num_classes
  else if String.eqb "resnet34" model_type then
    replace_fc (prep (models.resnet34 pretrained)) num_classes
  else if String.eqb "resnet50" model_type then
    replace_fc (prep (models.resnet50 pretrained)) num_classes
  else if String.eqb "resnet101" model_type then
    replace_fc (prep (models.resnet101 pretrained)) num_classes
  else if String.eqb "resnet152" model_type then
    replace_fc (prep (models.resnet152 pretrained)) num_classes
  else if String.eqb "alexnet" model_type then
    set_classifier_item (prep (models.alexnet pretrained)) 6
      (nn_Linear 4096 num_classes)
  else if String.eqb "vgg11" model_type then
    replace_classifier_item (prep (models.vgg11 pretrained)) 6 num_classes
  else if String.eqb "vgg11_bn" model_type then
    replace_classifier_item (prep (models.vgg11_bn pretrained)) 6 num_classes
  else if String.eqb "vgg13" model_type then
    replace_classifier_item (prep (models.vgg13 pretrained)) 6 num_classes
  else if String.eqb "vgg13_bn" model_type then
    replace_classifier_item (prep (models.vgg13_bn pretrained)) 6 num_classes
  else if String.eqb "vgg16" model_type then
    replace_classifier_item (prep (models.vgg16 pretrained)) 6 num_classes
  else if String.eqb "vgg16_bn" model_type then
    replace_classifier_item (prep (models.vgg16_bn pretrained)) 6 num_classes
  else if String.eqb "vgg19" model_type then
    replace_classifier_item (prep (models.vgg19 pretrained)) 6 num_classes
  else if String.eqb "vgg19_bn" model_type then
    replace_classifier_item (prep (models.vgg19_bn pretrained)) 6 num_classes
  else if String.eqb "squeezenet1_0" model_type then
    let* model :=
      set_classifier_item (prep (models.squeezenet1_0 pretrained)) 1
        (nn_Conv2d 512 num_classes) in
    setattr model "num_classes" (Int num_classes)
  else if String.eqb "squeezenet1_1" model_type then
    let* model :=
      set_classifier_item (prep (models.squeezenet1_1 pretrained)) 1
        (nn_Conv2d 512 num_classes) in
    setattr model "num_classes" (Int num_classes)
  else if String.eqb "densenet121" model_type then
    replace_classifier (prep (models.densenet121 pretrained)) num_classes
  else if String.eqb "densenet161" model_type then
    replace_classifier (prep (models.densenet161 pretrained)) num_classes
  else if String.eqb "densenet169" model_type then
    replace_classifier (prep (models.densenet169 pretrained)) num_classes
  else if String.eqb "densenet201" model_type then
    replace_classifier (prep (models.densenet201 pretrained)) num_classes
  else if String.eqb "googlenet" model_type then
    replace_fc (prep (models.googlenet pretrained)) num_classes
  else if String.eqb "shufflenet_v2_x0_5" model_type then
    replace_fc (prep (models.shufflenet_v2_x0_5 pretrained)) num_classes
  else if String.eqb "shufflenet_v2_x1_0" model_type then
    replace_fc (prep (models.shufflenet_v2_x1_0 pretrained)) num_classes
  else if String.eqb "mobilenet_v2" model_type then
    replace_classifier_item (prep (models.mobilenet_v2 pretrained)) 1 num_classes
  else if String.eqb "resnext50_32x4d" model_type then
    replace_classifier_item (prep (models.resnext50_32x4d pretrained)) 1
      num_classes
  else if String.eqb "resnext101_32x8d" model_type then
    replace_fc (prep (models.resnext101_32x8d pretrained)) num_classes
  else if String.eqb "wide_resnet50_2" model_type then
    replace_fc (prep (models.wide_resnet50_2 pretrained)) num_classes
  else if String.eqb "wide_resnet101_2" model_type then
    replace_fc (prep (models.wide_resnet101_2 pretrained)) num_classes
  else if String.eqb "mnasnet0_5" model_type then
    replace_classifier_item (prep (models.mnasnet0_5 pretrained)) 1 num_classes
  else if String.eqb "mnasnet1_0" model_type then
    replace_classifier_item (prep (models.mnasnet1_0 pretrained)) 1 num_classes
  else
    let model := prep (models.inception_v3 pretrained) in
    let* aux := getattr model "AuxLogits" in
    let* aux_fc := getattr aux "fc" in
    let* i := getattr aux_fc "in_features" in
    let* i := as_int i in
    let* aux' := setattr aux "fc" (nn_Linear i num_classes) in
    let* model := setattr model "AuxLogits" aux' in
    replace_fc model num_classes.

(** The names with a branch of their own in [create_model]. *)
Definition branch_names : list string :=
  ["resnet18"; "resnet34"; "resnet50"; "resnet101"; "resnet152"; "alexnet";
   "vgg11"; "vgg11_bn"; "vgg13"; "vgg13_bn"; "vgg16"; "vgg16_bn"; "vgg19";
   "vgg19_bn"; "squeezenet1_0"; "squeezenet1_1"; "densenet121"; "densenet161";
   "densenet169"; "densenet201"; "googlenet"; "shufflenet_v2_x0_5";
   "shufflenet_v2_x1_0"; "mobilenet_v2"; "resnext50_32x4d"; "resnext101_32x8d";
   "wide_resnet50_2"; "wide_resnet101_2"; "mnasnet0_5"; "mnasnet1_0"].

(** The architectures the script supports: those and Inception v3, which
    the last branch builds. *)
Definition supported_names : list string := branch_names ++ ["inception_v3"].

(** ** [load_model] and [get_model]

    Reading a weight file and restoring it into a model are calls into
    the tensor library: [torch_load path] is [torch.load(path)] and
    [load_state_dict model sd] is [model.load_state_dict(sd)]; either may
    raise.  What the script prints is returned next to the result. *)

(** Text is held as its UTF-8 bytes.  [utf8_chars] cuts it into
    characters: a byte that is not a continuation byte, with the
    continuation bytes that follow it. *)
Definition is_continuation (c : ascii) : bool :=
  let n := N_of_ascii c in ((128 <=? n) && (n <? 192))%N.

Definition starts_with_continuation (s : string) : bool :=
  match s with
  | String c _ => is_continuation c
  | EmptyString => false
  end.

Fixpoint utf8_chars (s : string) : list string :=
  match s with
  | EmptyString => []
  | String c s' =>
      match utf8_chars s' with
      | ch :: chars =>
          if starts_with_continuation ch then String c ch :: chars
          else String c EmptyString :: ch :: chars
      | [] => [String c EmptyString]
      end
  end.

(** The characters [str.strip()] removes: U+0009 to U+000D, U+001C to
    U+0020, U+0085, U+00A0, U+1680, U+2000 to U+200A, U+2028, U+2029,
    U+202F, U+205F and U+3000. *)
Definition is_space (ch : string) : bool :=
  match map N_of_ascii (list_ascii_of_string ch) with
  | [n] => ((9 <=? n) && (n <=? 13) || (28 <=? n) && (n <=? 32))%N
  | [194%N; n] => ((n =? 133) || (n =? 160))%N
  | [225%N; 154%N; 128%N] => true
  | [226%N; 128%N; n] =>
      ((128 <=? n) && (n <=? 138) || (n =? 168) || (n =? 169) || (n =? 175))%N
  | [226%N; 129%N; 159%N] => true
  | [227%N; 128%N; 128%N] => true
  | _ => false
  end.

Fixpoint lstrip_chars (chars : list string) : list string :=
  match chars with
  | [] => []
  | ch :: chars' => if is_space ch then lstrip_chars chars' else chars
  end.

Definition rstrip_chars (chars : list string) : list string :=
  rev (lstrip_chars (rev chars)).

(** [s.strip()] *)
Definition strip (s : string) : string :=
  String.concat "" (rstrip_chars (lstrip_chars (utf8_chars s))).

Definition str_bool (b : bool) : string := if b then "True" else "False".

Section Loading.

Context {state_dict : Type}.
Variable torch_load : string -> result state_dict.
Variable load_state_dict : obj -> state_dict -> result obj.

(** [model.load_state_dict(torch.load(model_path))]: the attempt to
    restore the weights into [model]. *)
Definition restore_weights (model : obj) (model_path : string) : result obj :=
  let* sd := torch_load model_path in
  load_state_dict model sd.

Definition load_model (model_type : string) (num_classes : Z)
    (feature_extract : bool) (model_path : string) : result obj :=
  let* model := create_model model_type num_classes feature_extract false in
  restore_weights model model_path.

Definition creating_msg (model_type : string) (pretrained : bool) : string :=
  ("creating new model " ++ model_type ++ ", pretrained = "
     ++ str_bool pretrained)%string.

Definition loading_msg (model_type model_path : string) : string :=
  ("loading model " ++ model_type ++ " from " ++ model_path)%string.

Definition fallback_msg (model_type model_path : string) : string :=
  ("could not load model " ++ model_type ++ " from " ++ model_path
     ++ ", will create a new one")%string.

(** The pair is (lines printed, value returned or exception raised). *)
Definition get_model (model_type : string) (num_classes : Z)
    (feature_extract pretrained : bool) (model_path : option string)
  : list string * result obj :=
  let fresh := create_model model_type num_classes feature_extract pretrained in
  match model_path with
  | None => ([creating_msg model_type pretrained], fresh)
  | Some path =>
      if (String.length (strip path) =? 0)%nat then
        ([creating_msg model_type pretrained], fresh)
      else
        match load_model model_type num_classes feature_extract path with
        | Ok model => ([loading_msg model_type path], Ok model)
        | Raise _ =>
            ([loading_msg model_type path; fallback_msg model_type path],
             fresh)
        end
  end.

End Loading.

(** ** [get_data_transforms]

    The two functions of [oneoffcoder.transform] are taken as they are
    called: [get_default_transforms input_size] returns the dictionary
    of default pipelines, [get_transforms specs] the dictionary built
    from the 5-tuples given on the command line, or raises. *)

Record transform_spec : Type := TransformSpec {
  t_phase : string;
  t_kind : string;
  t_name : string;
  t_order : string;
  t_params : string
}.

Section Transforms.

Context {pipeline : Type}.
Variable get_default_transforms : Z -> gmap string pipeline.
Variable get_transforms :
  list transform_spec -> result (gmap string pipeline).

(** [if phase in arg_transforms: def_transforms[phase] = arg_transforms[phase]] *)
Definition override (phase : string) (arg_transforms def_transforms : gmap string pipeline)
  : gmap string pipeline :=
  match arg_transforms !! phase with
  | Some p => <[phase := p]> def_transforms
  | None => def_transforms
  end.

Definition get_data_transforms (input_size : Z)
    (args_transform : option (list transform_spec))
  : result (gmap string pipeline) :=
  let def_transforms := get_default_transforms input_size in
  match args_transform with
  | Some specs =>
      let* arg_transforms := get_transforms specs in
      let def_transforms := override "train" arg_transforms def_transforms in
      let def_transforms := override "test" arg_transforms def_transforms in
      let def_transforms := override "valid" arg_transforms def_transforms in
      Ok def_transforms
  | None => Ok def_transforms
  end.

End Transforms.

(** ** The training loop

    [Torch] gathers the calls [train_model] makes into the tensor
    library.  A value of [T] is everything those calls may change: the
    parameters and buffers of the model, the gradients, the optimizer
    and the scheduler, the random generators.  [B] is a batch (inputs
    and labels), [Out] a batch of scores, [W] a copy of the model's
    state dictionary.  Losses and accuracies are rationals.  Every call
    is taken to return: [train_model] has no handler, so an exception
    raised inside the library ends the run where it is raised. *)

Inductive phase : Type := train | test | valid.

Definition phase_eqb (a b : phase) : bool :=
  match a, b with
  | train, train | test, test | valid, valid => true
  | _, _ => false
  end.

Class Torch (T B Out W : Type) : Type := {
  optimizer_step : T -> T;
  scheduler_step : T -> T;
  optimizer_zero_grad : T -> T;
  model_train : T -> T;
  model_eval : T -> T;
  (** [outputs = model(inputs)] *)
  model_call : T -> B -> Out * T;
  (** [outputs, aux_outputs = model(inputs)] *)
  model_call_aux : T -> B -> Out * Out * T;
  (** [criterion(outputs, labels)], read with [loss.item()] *)
  criterion : Out -> B -> Q;
  (** [loss.backward()], for the plain or the auxiliary-weighted loss *)
  loss_backward : bool -> B -> T -> T;
  (** [torch.sum(preds == labels.data)] with [preds] the arg-max of [outputs] *)
  count_corrects : Out -> B -> Z;
  (** [inputs.size(0)] *)
  batch_items : B -> Z;
  (** [copy.deepcopy(model.state_dict())] *)
  model_state_dict : T -> W;
  (** [model.load_state_dict(w)] *)
  model_load_state_dict : W -> T -> T
}.

(** The library calls, in the order they are made. *)
Inductive event : Type :=
| OptimizerStep
| SchedulerStep
| ZeroGrad
| SetTrain
| SetEval
| Iterate (p : phase)
| Forward (aux : bool)
| Backward
| Snapshot
| LoadStateDict.

Record Result : Type := mkResult {
  r_phase : phase;
  r_loss : Q;
  r_acc : Q
}.

Definition Qgt_bool (x y : Q) : bool := negb (Qle_bool x y).

(** The state the loop threads: the library state and the calls made so
    far. *)
Record run (T : Type) : Type := mkRun {
  torch : T;
  calls : list event
}.

Arguments mkRun {T} torch calls.
Arguments torch {T} r.
Arguments calls {T} r.

Definition call {T : Type} (e : event) (f : T -> T) (s : run T) : run T :=
  mkRun (f (torch s)) (calls s ++ [e]).

(** [running_corrects] starts as the integer [0] and becomes a tensor
    with the first batch; only a tensor has [.double()]. *)
Inductive count : Type :=
| IntCount (z : Z)
| TensorCount (z : Z).

Definition count_value (c : count) : Z :=
  match c with IntCount z | TensorCount z => z end.

Definition count_add (c : count) (corrects : Z) : count :=
  TensorCount (count_value c + corrects).

Definition count_double (c : count) : result Q :=
  match c with
  | TensorCount z => Ok (inject_Z z)
  | IntCount _ => Raise (AttributeError "double")
  end.

(** The sum over batches of loss times item count, and the number of
    correct predictions of a pass. *)
Definition weighted_loss (stats : list (Q * Z * Z)) : Q :=
  fold_right (fun '(loss, n, _) acc => (loss * inject_Z n + acc)%Q) 0%Q stats.

Definition total_corrects (stats : list (Q * Z * Z)) : Z :=
  fold_right (fun '(_, _, c) acc => c + acc) 0 stats.

(** The calls one batch makes, in a training and in an evaluation pass. *)
Definition train_batch_events (aux : bool) : list event :=
  [ZeroGrad; Forward aux; Backward; OptimizerStep].

Definition eval_batch_events : list event := [ZeroGrad; Forward false].

Definition per_batch {B : Type} (events : list event) (batches : list B)
  : list event :=
  concat (map (fun _ => events) batches).

Section TrainModel.

Context {T B Out W : Type} `{!Torch T B Out W}.

(** Iterating [dataloaders[phase]] yields the batches of one pass and
    may draw from the random generators. *)
Variable dataloaders : phase -> T -> list B * T.
Variable dataset_sizes : phase -> Z.
Variable is_inception : bool.

Record running : Type := mkRunning {
  r_state : run T;
  running_loss : Q;
  running_corrects : count
}.

(** The forward pass of one batch and its loss. *)
Definition forward (ph : phase) (b : B) (s : run T) : Out * Q * run T :=
  if is_inception && phase_eqb ph train then
    let '(outputs, aux_outputs, t) := model_call_aux (torch s) b in
    let loss1 := criterion outputs b in
    let loss2 := criterion aux_outputs b in
    (outputs, (loss1 + (4 # 10) * loss2)%Q, mkRun t (calls s ++ [Forward true]))
  else
    let '(outputs, t) := model_call (torch s) b in
    (outputs, criterion outputs b, mkRun t (calls s ++ [Forward false])).

(** The body of the loop over batches, up to the statistics: the
    state after the batch, its loss and its count of correct
    predictions. *)
Definition batch_pass (ph : phase) (s : run T) (b : B) : run T * Q * Z :=
  let s := call ZeroGrad optimizer_zero_grad s in
  let '(outputs, loss, s) := forward ph b s in
  let s :=
    if phase_eqb ph train then
      let s := call Backward
                 (loss_backward (is_inception && phase_eqb ph train) b) s in
      call OptimizerStep optimizer_step s
    else s in
  (s, loss, count_corrects outputs b).

(** The body of the loop over batches. *)
Definition batch_step (ph : phase) (r : running) (b : B) : running :=
  let '(s, loss, corrects) := batch_pass ph (r_state r) b in
  mkRunning s
    (running_loss r + loss * inject_Z (batch_items b))%Q
    (count_add (running_corrects r) corrects).

(** What precedes the loop over batches in a phase. *)
Definition enter_phase (ph : phase) (s : run T) : run T :=
  if phase_eqb ph train then
    let s := call OptimizerStep optimizer_step s in
    let s := call SchedulerStep scheduler_step s in
    call SetTrain model_train s
  else call SetEval model_eval s.

(** The body of the loop over phases, up to the [Result] it builds. *)
Definition run_phase (ph : phase) (s : run T) : result (run T * Result) :=
  let s := enter_phase ph s in
  let '(batches, t) := dataloaders ph (torch s) in
  let s := mkRun t (calls s ++ [Iterate ph]) in
  let r := fold_left (batch_step ph) batches (mkRunning s 0%Q (IntCount 0)) in
  let* epoch_loss :=
    if dataset_sizes ph =? 0 then Raise ZeroDivisionError
    else Ok (running_loss r / inject_Z (dataset_sizes ph))%Q in
  let* corrects := count_double (running_corrects r) in
  let epoch_acc := (corrects / inject_Z (dataset_sizes ph))%Q in
  Ok (r_state r, mkResult ph epoch_loss epoch_acc).

(** Per batch of a pass: its loss, its item count and its count of
    correct predictions, as the loop meets them. *)
Fixpoint batch_stats (ph : phase) (s : run T) (batches : list B)
  : list (Q * Z * Z) :=
  match batches with
  | [] => []
  | b :: batches' =>
      let '(s', loss, corrects) := batch_pass ph s b in
      (loss, batch_items b, corrects) :: batch_stats ph s' batches'
  end.

Record loop : Type := mkLoop {
  l_state : run T;
  best_acc : Q;
  best_model_wts : W;
  printed : list (list Result)
}.

(** One phase of one epoch: run it, append its result, and take a
    snapshot when the test accuracy beats the best one. *)
Definition phase_step (l : loop) (results : list Result) (ph : phase)
  : result (loop * list Result) :=
  let* '(s, r) := run_phase ph (l_state l) in
  let results := results ++ [r] in
  if phase_eqb ph test && Qgt_bool (r_acc r) (best_acc l) then
    Ok (mkLoop (mkRun (torch s) (calls s ++ [Snapshot])) (r_acc r)
          (model_state_dict (torch s)) (printed l), results)
  else
    Ok (mkLoop s (best_acc l) (best_model_wts l) (printed l), results).

(** The body of the loop over epochs. *)
Definition epoch (l : loop) : result loop :=
  let* '(l, results) := phase_step l [] train in
  let* '(l, results) := phase_step l results test in
  Ok (mkLoop (l_state l) (best_acc l) (best_model_wts l)
        (printed l ++ [results])).

Fixpoint epochs (n : nat) (l : loop) : result loop :=
  match n with
  | O => Ok l
  | S n' => let* l' := epoch l in epochs n' l'
  end.

Definition start (model : T) : loop :=
  mkLoop (mkRun model [Snapshot]) 0%Q (model_state_dict model) [].

(** [train_model]: the returned model is the library state of the
    result. *)
Definition train_model (model : T) (num_epochs : Z) : result loop :=
  let* l := epochs (Z.to_nat num_epochs) (start model) in
  Ok (mkLoop
        (call LoadStateDict (model_load_state_dict (best_model_wts l))
           (l_state l))
        (best_acc l) (best_model_wts l) (printed l)).

(** ** Quantities the properties speak about *)

Definition batch_events (ph : phase) : list event :=
  if phase_eqb ph train then train_batch_events is_inception
  else eval_batch_events.

(** The batches a phase entered from [s] iterates over, and the state
    in which its first batch starts. *)
Definition phase_batches (ph : phase) (s : run T) : list B :=
  (dataloaders ph (torch (enter_phase ph s))).1.

Definition phase_start (ph : phase) (s : run T) : run T :=
  mkRun (dataloaders ph (torch (enter_phase ph s))).2
    (calls (enter_phase ph s) ++ [Iterate ph]).

Definition phase_stats (ph : phase) (s : run T) : list (Q * Z * Z) :=
  batch_stats ph (phase_start ph s) (phase_batches ph s).

(** [r] reports the weighted mean loss and the accuracy of the phase
    [ph] entered from [s]. *)
Definition reports (ph : phase) (s : run T) (r : Result) : Prop :=
  r_phase r = ph
  /\ (r_loss r
      == weighted_loss (phase_stats ph s) / inject_Z (dataset_sizes ph))%Q
  /\ (r_acc r
      == inject_Z (total_corrects (phase_stats ph s))
         / inject_Z (dataset_sizes ph))%Q.

(** The test accuracy of the epoch that starts in [l], and the state
    dictionary of the model at the end of that epoch. *)
Definition evaluate (l : loop) : result (Q * W) :=
  let* '(s1, _) := run_phase train (l_state l) in
  let* '(s2, r2) := run_phase test s1 in
  Ok (r_acc r2, model_state_dict (torch s2)).

(** Accuracy and end-of-epoch weights of [n] epochs from [l] on. *)
Fixpoint history (n : nat) (l : loop) : result (list (Q * W)) :=
  match n with
  | O => Ok []
  | S n' =>
      let* e := evaluate l in
      let* l' := epoch l in
      let* h := history n' l' in
      Ok (e :: h)
  end.

End TrainModel.

Arguments loop : clear implicits.
Arguments running : clear implicits.

(** The update of the best accuracy and snapshot by one epoch's test
    accuracy and end-of-epoch weights, and its iteration over a run. *)
Definition pick {W : Type} (best e : Q * W) : Q * W :=
  if Qgt_bool e.1 best.1 then e else best.

Definition best_of {W : Type} (init : Q * W) (h : list (Q * W)) : Q * W :=
  fold_left pick h init.

Definition best {T W : Type} (l : loop T W) : Q * W :=
  (best_acc l, best_model_wts l).

(** The reading of the best-snapshot rule on which the returned model
    always carries the weights of some epoch of maximal test accuracy. *)
Definition carries_best_epoch {T B Out W : Type} `{!Torch T B Out W}
    (dataloaders : phase -> T -> list B * T) (dataset_sizes : phase -> Z)
    (is_inception : bool) (model : T) (num_epochs : Z) : Prop :=
  forall l,
    train_model dataloaders dataset_sizes is_inception model num_epochs = Ok l ->
    exists l_end h j e,
      epochs dataloaders dataset_sizes is_inception (Z.to_nat num_epochs)
        (start model) = Ok l_end
      /\ history dataloaders dataset_sizes is_inception (Z.to_nat num_epochs)
           (start model) = Ok h
      /\ h !! j = Some e
      /\ (forall i e', h !! i = Some e' -> (e'.1 <= e.1)%Q)
      /\ torch (l_state l)
         = model_load_state_dict e.2 (torch (l_state l_end)).

#[global] Instance phase_eq_dec : EqDecision phase.
Proof. solve_decision. Defined.

#[global] Instance event_eq_dec : EqDecision event.
Proof. solve_decision. Defined.

(** ** The library calls behind the labels

    An [action] is one call into the library with its arguments;
    [label] is the event recorded for it, [perform] what the call does
    to the library state, and [replay] a sequence of calls made one
    after the other.  Copying the state dictionary leaves the state as
    it is. *)

Inductive action (B W : Type) : Type :=
| DoOptimizerStep
| DoSchedulerStep
| DoZeroGrad
| DoSetTrain
| DoSetEval
| DoIterate (ph : phase)
| DoForward (aux : bool) (b : B)
| DoBackward (aux : bool) (b : B)
| DoSnapshot
| DoLoadStateDict (w : W).

Arguments DoOptimizerStep {B W}.
Arguments DoSchedulerStep {B W}.
Arguments DoZeroGrad {B W}.
Arguments DoSetTrain {B W}.
Arguments DoSetEval {B W}.
Arguments DoIterate {B W} ph.
Arguments DoForward {B W} aux b.
Arguments DoBackward {B W} aux b.
Arguments DoSnapshot {B W}.
Arguments DoLoadStateDict {B W} w.

Definition label {B W : Type} (a : action B W) : event :=
  match a with
  | DoOptimizerStep => OptimizerStep
  | DoSchedulerStep => SchedulerStep
  | DoZeroGrad => ZeroGrad
  | DoSetTrain => SetTrain
  | DoSetEval => SetEval
  | DoIterate ph => Iterate ph
  | DoForward aux _ => Forward aux
  | DoBackward _ _ => Backward
  | DoSnapshot => Snapshot
  | DoLoadStateDict _ => LoadStateDict
  end.

Section Replay.

Context {T B Out W : Type} `{!Torch T B Out W}.
Variable dataloaders : phase -> T -> list B * T.

Definition perform (a : action B W) (t : T) : T :=
  match a with
  | DoOptimizerStep => optimizer_step t
  | DoSchedulerStep => scheduler_step t
  | DoZeroGrad => optimizer_zero_grad t
  | DoSetTrain => model_train t
  | DoSetEval => model_eval t
  | DoIterate ph => (dataloaders ph t).2
  | DoForward aux b =>
      if aux then (model_call_aux t b).2 else (model_call t b).2
  | DoBackward aux b => loss_backward aux b t
  | DoSnapshot => t
  | DoLoadStateDict w => model_load_state_dict w t
  end.

Definition replay (actions : list (action B W)) (t : T) : T :=
  fold_left (fun t a => perform a t) actions t.

End Replay.

(** The calls of one batch, in a training and in an evaluation pass. *)
Definition train_batch_actions {B W : Type} (aux : bool) (b : B)
  : list (action B W) :=
  [DoZeroGrad; DoForward aux b; DoBackward aux b; DoOptimizerStep].

Definition eval_batch_actions {B W : Type} (b : B) : list (action B W) :=
  [DoZeroGrad; DoForward false b].

(** ** A small instance of the library interface

    Used to run the loop on concrete inputs.  The weights are the number
    of optimizer steps applied so far; a batch is its item count; the
    scores remember the weights that produced them; [corrects] lists,
    by epoch, how many items an evaluation pass classifies correctly. *)

Module Toy.

Definition epoch_of (weights : nat) : nat := (weights / 2 - 1)%nat.

Definition torch (corrects : list Z) : Torch nat Z nat nat := {|
  optimizer_step := S;
  scheduler_step := fun t => t;
  optimizer_zero_grad := fun t => t;
  model_train := fun t => t;
  model_eval := fun t => t;
  model_call := fun t _ => (t, t);
  model_call_aux := fun t _ => (t, t, t);
  criterion := fun _ _ => (1 # 2)%Q;
  loss_backward := fun _ _ t => t;
  count_corrects := fun out _ => nth (epoch_of out) corrects 0;
  batch_items := fun b => b;
  model_state_dict := fun t => t;
  model_load_state_dict := fun w _ => w
|}.

(** One batch of ten items in every phase. *)
Definition dataloaders (ph : phase) (t : nat) : list Z * nat := ([10], t).
Definition dataset_sizes (ph : phase) : Z := 10.

Definition train (corrects : list Z) (num_epochs : Z)
  : result (loop nat nat) :=
  train_model (Torch0 := torch corrects) dataloaders dataset_sizes false
    O num_epochs.

Definition missing_file (path : string) : result unit :=
  Raise FileNotFoundError.

Definition restore (model : obj) (sd : unit) : result obj := Ok model.

Definition default_transforms (input_size : Z) : gmap string (list string) :=
  {[ "train" := ["RandomResizedCrop"; "RandomHorizontalFlip"; "ToTensor"];
     "test" := ["Resize"; "CenterCrop"; "ToTensor"];
     "valid" := ["Resize"; "CenterCrop"; "ToTensor"] ]}.

(** Keeps the kind of every step, grouped by phase, in the order
    given. *)
Fixpoint by_phase (specs : list transform_spec) : gmap string (list string) :=
  match specs with
  | [] => ∅
  | sp :: specs' =>
      let m := by_phase specs' in
      <[t_phase sp := t_kind sp :: default [] (m !! t_phase sp)]> m
  end.

Definition transforms (specs : list transform_spec)
  : result (gmap string (list string)) := Ok (by_phase specs).

End Toy.

(** ** An instance that records the calls

    The library state is the list of the calls made on it; every pass
    has three batches, of 4, 4 and 2 items. *)

Module Recorder.

Definition torch : Torch (list event) Z unit (list event) := {|
  optimizer_step := fun t => t ++ [OptimizerStep];
  scheduler_step := fun t => t ++ [SchedulerStep];
  optimizer_zero_grad := fun t => t ++ [ZeroGrad];
  model_train := fun t => t ++ [SetTrain];
  model_eval := fun t => t ++ [SetEval];
  model_call := fun t _ => (tt, t ++ [Forward false]);
  model_call_aux := fun t _ => (tt, tt, t ++ [Forward true]);
  criterion := fun _ _ => (1 # 2)%Q;
  loss_backward := fun _ _ t => t ++ [Backward];
  count_corrects := fun _ _ => 1;
  batch_items := fun b => b;
  model_state_dict := fun t => t;
  model_load_state_dict := fun _ t => t ++ [LoadStateDict]
|}.

Definition dataloaders (ph : phase) (t : list event) : list Z * list event :=
  ([4; 4; 2], t ++ [Iterate ph]).

Definition dataset_sizes (ph : phase) : Z := 10.

End Recorder.

(** ** The parameters handed to the optimizer, from [do_it]

    [parameters model] has one entry per layer that owns parameters, in
    the order [model.parameters()] meets them; the tensors of a layer
    share its gradient flag. *)

Fixpoint parameters (o : obj) : list obj :=
  match o with
  | Linear _ _ _ | Conv2d _ _ _ | Features _ => [o]
  | Op _ | Int _ => []
  | Sequential children => flat_map parameters children
  | Net _ attrs => flat_map (fun '(_, v) => parameters v) attrs
  end.

(** [param.requires_grad] *)
Definition layer_requires_grad (layer : obj) : bool :=
  match layer with
  | Linear _ _ p | Conv2d _ _ p | Features p => requires_grad p
  | _ => false
  end.

Definition params_to_update (model : obj) (feature_extract : bool) : list obj :=
  if feature_extract then filter (fun l => layer_requires_grad l = true)
                            (parameters model)
  else parameters model.


(** ** [save_model]

    [torch_save model path] is [torch.save(model.state_dict(), path)].
    [str_int] prints an integer the way [format] does. *)

Definition str_int (z : Z) : string := NilZero.string_of_int (Z.to_int z).

Definition output_path (model_type : string) (ms : Z)
    (output_dir : option string) : string :=
  let o_dir :=
    match output_dir with
    | None => "/tmp"
    | Some d => if (String.length (strip d) =? 0)%nat then "/tmp" else strip d
    end in
  let output_file :=
    ("oneoffcoder-" ++ str_int ms ++ "-" ++ model_type ++ ".pth")%string in
  (o_dir ++ "/" ++ output_file)%string.

(** No character of [s] is a dash. *)
Fixpoint no_dash (s : string) : bool :=
  match s with
  | EmptyString => true
  | String c s' => negb (Ascii.eqb c "-") && no_dash s'
  end.

Section Saving.

Variable torch_save : obj -> string -> result unit.

(** The pair is (lines printed, exception raised if any). *)
Definition save_model (model_type : string) (model : obj) (ms : Z)
    (output_dir : option string) : list string * result unit :=
  let path := output_path model_type ms output_dir in
  match torch_save model path with
  | Ok _ => ([("saved model to " ++ path)%string], Ok tt)
  | Raise e => ([], Raise e)
  end.

End Saving.

(** ** Tactics *)

Ltac in_list := simpl; repeat (first [left; reflexivity | right]).

(** Decides the tests of [create_model] one after the other, from the
    fact that the name is none of the supported ones. *)
Ltac skip_branches name H :=
  repeat match goal with
    | |- context [String.eqb ?lit name] =>
        destruct (String.eqb_spec lit name) as [<- | _];
        [exfalso; apply H; unfold supported_names, branch_names; in_list |];
        cbv iota
    end.

Ltac by_branch H :=
  unfold branch_names in H; simpl in H;
  repeat (destruct H as [H | H]; [subst |]); [.. | contradiction].


Ltac compute_parameters :=
  match goal with
  | |- context [parameters ?m] =>
      let l := eval vm_compute in (parameters m) in
      change (parameters m) with l
  end.


Ltac all_trainable :=
  split; [vm_compute; reflexivity |];
  split; [vm_compute; reflexivity |];
  compute_parameters; repeat constructor.


(** * Properties *)

(** ** The definitions on concrete inputs *)

Example create_resnet18 :
  (let* m := create_model "resnet18" 5 false true in final_width m) = Ok 5.
Proof. reflexivity. Qed.

Example strip_blank : strip (String "009" (String " " "")) = "".
Proof. reflexivity. Qed.

Example strip_path : strip "  /tmp/m.pth " = "/tmp/m.pth".
Proof. reflexivity. Qed.

(** U+00A0 and U+0085 are white space, as is U+3000. *)
Example strip_no_break_space :
  strip (String "194" (String "160" (String "194" (String "133" "")))) = "".
Proof. reflexivity. Qed.

Example strip_ideographic_space :
  strip (String "227" (String "128" (String "128" "/tmp/m.pth")))
  = "/tmp/m.pth".
Proof. reflexivity. Qed.

(** A character that merely contains the byte 160 is kept. *)
Example strip_keeps_letters :
  strip (String "195" (String "160" " x")) = String "195" (String "160" " x").
Proof. reflexivity. Qed.

Example toy_best_of_five :
  match Toy.train [5; 7; 6; 9; 8] 5 with
  | Ok l => (best_acc l, best_model_wts l, torch (l_state l))
  | Raise _ => (0%Q, O, O)
  end = ((9 # 10)%Q, 8%nat, 8%nat).
Proof. vm_compute. reflexivity. Qed.

(** ** Input size *)

Lemma get_input_size_cases (model_type : string) :
  (model_type = "inception_v3" /\ get_input_size model_type = 299)
  \/ (model_type <> "inception_v3" /\ get_input_size model_type = 224).
Proof.
  unfold get_input_size.
  destruct (String.eqb_spec "inception_v3" model_type) as [E | E].
  - left. split; [symmetry; exact E | reflexivity].
  - right. split; [congruence | reflexivity].
Qed.

(** C7: the input size is 299 exactly for the name inception_v3, and 224
    exactly for every other name. *)
Theorem input_size_299_iff_inception_v3 :
  forall model_type : string,
    (get_input_size model_type = 299 <-> model_type = "inception_v3")
    /\ (get_input_size model_type = 224 <-> model_type <> "inception_v3").
Proof.
  intros model_type.
  destruct (get_input_size_cases model_type) as [[E R] | [E R]];
    rewrite R; repeat split; intros; try congruence; try discriminate.
Qed.

(** ** Seeding *)

Lemma main_seed_positive (s now_ms : Z) : 0 < s -> main_seed s now_ms = s.
Proof.
  intros H. unfold main_seed.
  destruct (Z.gtb_spec s 0); [reflexivity | lia].
Qed.

Lemma main_seed_negative (s now_ms : Z) : s < 0 -> main_seed s now_ms = now_ms.
Proof.
  intros H. unfold main_seed.
  destruct (Z.gtb_spec s 0); [lia | reflexivity].
Qed.

(** C3, at the seed 0: the generators are seeded with the clock, whatever
    it reads, and not with 0. *)
Theorem main_seed_zero_reads_clock :
  forall now_ms : Z, main_seed 0 now_ms = now_ms.
Proof. intros now_ms. reflexivity. Qed.

(** ** The model factory *)

Lemma create_model_branch_width (model_type : string) (n : Z) :
  In model_type branch_names -> model_type <> "resnext50_32x4d" ->
  forall feature_extract pretrained : bool,
    (let* m := create_model model_type n feature_extract pretrained in
     final_width m) = Ok n.
Proof.
  intros H Hne. unfold branch_names in H. simpl in H.
  revert Hne.
  repeat (destruct H as [H | H];
          [subst model_type; intros Hne;
           first [ congruence
                 | intros [] []; vm_compute; reflexivity ] |]).
  contradiction.
Qed.

Lemma create_model_inception_width (n : Z) (feature_extract pretrained : bool) :
  (let* m := create_model "inception_v3" n feature_extract pretrained in
   final_width m) = Ok n.
Proof. destruct feature_extract, pretrained; vm_compute; reflexivity. Qed.

(** C2, at the name resnext50_32x4d: the factory raises before any head
    is replaced, for every class count and every setting of the flags:
    the network has no attribute [classifier]. *)
Theorem create_model_resnext50_raises :
  forall (n : Z) (feature_extract pretrained : bool),
    create_model "resnext50_32x4d" n feature_extract pretrained
    = Raise (AttributeError "classifier").
Proof. intros n [] []; vm_compute; reflexivity. Qed.

(** Every other supported name gets a model whose final layer has the
    requested width. *)
Lemma create_model_width_elsewhere (model_type : string) (n : Z)
    (feature_extract pretrained : bool) :
  In model_type supported_names -> model_type <> "resnext50_32x4d" ->
  (let* m := create_model model_type n feature_extract pretrained in
   final_width m) = Ok n.
Proof.
  unfold supported_names. intros H Hne.
  apply in_app_or in H. destruct H as [H | [H | []]].
  - apply create_model_branch_width; assumption.
  - subst. apply create_model_inception_width.
Qed.

Lemma create_model_unknown (name : string) (n : Z)
    (feature_extract pretrained : bool) :
  ~ In name supported_names ->
  create_model name n feature_extract pretrained
  = create_model "inception_v3" n feature_extract pretrained.
Proof.
  intros H.
  remember (create_model "inception_v3" n feature_extract pretrained) as rhs
    eqn:E.
  unfold create_model. skip_branches name H.
  subst rhs. reflexivity.
Qed.




(** ** Loading a model *)

Section LoadingFacts.

Context {state_dict : Type}.
Variable torch_load : string -> result state_dict.
Variable load_state_dict : obj -> state_dict -> result obj.

Lemma get_model_no_path (model_type : string) (n : Z)
    (feature_extract pretrained : bool) :
  get_model torch_load load_state_dict model_type n feature_extract
    pretrained None
  = ([creating_msg model_type pretrained],
     create_model model_type n feature_extract pretrained).
Proof. reflexivity. Qed.

Lemma get_model_blank_path (model_type : string) (n : Z)
    (feature_extract pretrained : bool) (path : string) :
  strip path = "" ->
  get_model torch_load load_state_dict model_type n feature_extract
    pretrained (Some path)
  = ([creating_msg model_type pretrained],
     create_model model_type n feature_extract pretrained).
Proof. intros E. unfold get_model. rewrite E. reflexivity. Qed.

(** A failed load is caught: the fallback line is printed and the
    result is whatever the factory gives for the requested settings. *)
Lemma get_model_load_failure (model_type : string) (n : Z)
    (feature_extract pretrained : bool) (path : string) :
  strip path <> "" ->
  is_ok (load_model torch_load load_state_dict model_type n feature_extract
           path) = false ->
  get_model torch_load load_state_dict model_type n feature_extract
    pretrained (Some path)
  = ([loading_msg model_type path; fallback_msg model_type path],
     create_model model_type n feature_extract pretrained).
Proof.
  intros Hp Hl. unfold get_model.
  destruct (strip path) as [| c r] eqn:Es; [congruence |]. simpl.
  destruct (load_model torch_load load_state_dict model_type n
              feature_extract path);
    [discriminate Hl | reflexivity].
Qed.

Lemma get_model_load_success (model_type : string) (n : Z)
    (feature_extract pretrained : bool) (path : string) (model : obj) :
  strip path <> "" ->
  load_model torch_load load_state_dict model_type n feature_extract path
  = Ok model ->
  get_model torch_load load_state_dict model_type n feature_extract
    pretrained (Some path)
  = ([loading_msg model_type path], Ok model).
Proof.
  intros Hp Hl. unfold get_model.
  destruct (strip path) as [| c r] eqn:Es; [congruence |]. simpl.
  rewrite Hl. reflexivity.
Qed.

End LoadingFacts.

(** C4, at the name resnext50_32x4d with a path: whatever reading and
    restoring the weights would do, the load attempt fails while the
    network is built, the fallback line is printed, and the factory
    called for the fresh model raises again, so that an exception
    escapes [get_model]. *)
Theorem get_model_resnext50_raises :
  forall (state_dict : Type)
         (torch_load : string -> result state_dict)
         (load_state_dict : obj -> state_dict -> result obj)
         (n : Z) (feature_extract pretrained : bool),
    get_model torch_load load_state_dict "resnext50_32x4d" n feature_extract
      pretrained (Some "/tmp/missing.pth")
    = (["loading model resnext50_32x4d from /tmp/missing.pth";
        "could not load model resnext50_32x4d from /tmp/missing.pth, will create a new one"],
       Raise (AttributeError "classifier")).
Proof.
  intros sd tl ls n fe pre.
  rewrite get_model_load_failure.
  - destruct fe, pre; vm_compute; reflexivity.
  - vm_compute. discriminate.
  - unfold load_model. destruct fe; vm_compute; reflexivity.
Qed.

(** ** Transform pipelines *)

Section TransformFacts.

Context {pipeline : Type}.
Variable get_default_transforms : Z -> gmap string pipeline.
Variable get_transforms :
  list transform_spec -> result (gmap string pipeline).

Lemma override_lookup (phase key : string)
    (arg_transforms def_transforms : gmap string pipeline) :
  override phase arg_transforms def_transforms !! key
  = if decide (key = phase) then
      match arg_transforms !! phase with
      | Some p => Some p
      | None => def_transforms !! phase
      end
    else def_transforms !! key.
Proof.
  unfold override.
  destruct (arg_transforms !! phase) as [p |] eqn:E;
    destruct (decide (key = phase)) as [-> | Hne];
    try reflexivity.
  - apply lookup_insert_eq.
  - apply lookup_insert_ne. congruence.
Qed.

Lemma get_data_transforms_lookup (input_size : Z)
    (specs : list transform_spec) (arg_transforms : gmap string pipeline)
    (key : string) :
  get_transforms specs = Ok arg_transforms ->
  exists r,
    get_data_transforms get_default_transforms get_transforms input_size
      (Some specs) = Ok r
    /\ r !! key
       = if decide (key = "train" \/ key = "test" \/ key = "valid") then
           match arg_transforms !! key with
           | Some p => Some p
           | None => get_default_transforms input_size !! key
           end
         else get_default_transforms input_size !! key.
Proof.
  intros E. unfold get_data_transforms. rewrite E. simpl.
  eexists. split; [reflexivity |].
  rewrite !override_lookup.
  repeat case_decide; subst; try reflexivity; try discriminate;
    try (exfalso; tauto).
Qed.

End TransformFacts.

(** C6: when the specifications resolve to the dictionary
    [arg_transforms], each of the phases train, test and valid that has
    an entry there gets exactly that entry as its pipeline, a phase
    without an entry keeps its default pipeline, and so does every key
    that is none of the three; with no specifications the defaults are
    returned as they are. *)
Theorem get_data_transforms_overrides_by_phase :
  forall (pipeline : Type)
         (get_default_transforms : Z -> gmap string pipeline)
         (get_transforms : list transform_spec -> result (gmap string pipeline))
         (input_size : Z),
    get_data_transforms get_default_transforms get_transforms input_size None
    = Ok (get_default_transforms input_size)
    /\ forall (specs : list transform_spec)
              (arg_transforms : gmap string pipeline),
        get_transforms specs = Ok arg_transforms ->
        exists r,
          get_data_transforms get_default_transforms get_transforms input_size
            (Some specs) = Ok r
          /\ (forall (key : string) (p : pipeline),
                key = "train" \/ key = "test" \/ key = "valid" ->
                arg_transforms !! key = Some p -> r !! key = Some p)
          /\ (forall key : string,
                arg_transforms !! key = None ->
                r !! key = get_default_transforms input_size !! key)
          /\ (forall key : string,
                key <> "train" -> key <> "test" -> key <> "valid" ->
                r !! key = get_default_transforms input_size !! key).
Proof.
  intros pipeline gd gt input_size. split; [reflexivity |].
  intros specs arg E.
  assert (L : exists r,
             get_data_transforms gd gt input_size (Some specs) = Ok r
             /\ forall key,
                 r !! key
                 = if decide (key = "train" \/ key = "test" \/ key = "valid")
                   then match arg !! key with
                        | Some p => Some p
                        | None => gd input_size !! key
                        end
                   else gd input_size !! key).
  { unfold get_data_transforms. rewrite E. simpl.
    eexists. split; [reflexivity |]. intros key.
    destruct (get_data_transforms_lookup gd gt input_size specs arg key E)
      as (r & Hr & Hk).
    unfold get_data_transforms in Hr. rewrite E in Hr. simpl in Hr.
    injection Hr as <-. exact Hk. }
  destruct L as (r & Hr & L). exists r. split; [exact Hr |].
  split; [| split].
  - intros key p Hk Hp. rewrite L, Hp. case_decide; [reflexivity | tauto].
  - intros key Hn. rewrite L, Hn. case_decide; reflexivity.
  - intros key H1 H2 H3. rewrite L. case_decide; [tauto | reflexivity].
Qed.

Lemma get_data_transforms_overrides_by_phase_witness :
  let specs := [TransformSpec "train" "Resize" "r" "0" "{}";
                TransformSpec "train" "ToTensor" "tt" "1" "{}"] in
  exists r,
    get_data_transforms Toy.default_transforms Toy.transforms 224 (Some specs)
    = Ok r
    /\ r !! "train" = Some ["Resize"; "ToTensor"]
    /\ r !! "test" = Some ["Resize"; "CenterCrop"; "ToTensor"]
    /\ r !! "valid" = Some ["Resize"; "CenterCrop"; "ToTensor"].
Proof.
  intros specs.
  destruct (proj2 (get_data_transforms_overrides_by_phase (list string)
                     Toy.default_transforms Toy.transforms 224)
              specs (Toy.by_phase specs) eq_refl)
    as (r & Hr & Hin & Hout & _).
  exists r. split; [exact Hr |]. split; [| split].
  - apply Hin; [left; reflexivity | vm_compute; reflexivity].
  - rewrite Hout by (vm_compute; reflexivity). vm_compute. reflexivity.
  - rewrite Hout by (vm_compute; reflexivity). vm_compute. reflexivity.
Defined.

(** ** The training loop *)

Section TrainFacts.

Context {T B Out W : Type} `{!Torch T B Out W}.
Variable dataloaders : phase -> T -> list B * T.
Variable dataset_sizes : phase -> Z.
Variable is_inception : bool.

Local Abbreviation batch_pass := (batch_pass is_inception).
Local Abbreviation batch_events := (batch_events is_inception).
Local Abbreviation batch_step := (batch_step is_inception).
Local Abbreviation run_phase := (run_phase dataloaders dataset_sizes is_inception).
Local Abbreviation phase_step := (phase_step dataloaders dataset_sizes is_inception).
Local Abbreviation epoch := (epoch dataloaders dataset_sizes is_inception).
Local Abbreviation epochs := (epochs dataloaders dataset_sizes is_inception).
Local Abbreviation phase_batches := (phase_batches dataloaders).
Local Abbreviation phase_start := (phase_start dataloaders).
Local Abbreviation phase_stats := (phase_stats dataloaders is_inception).
Local Abbreviation reports := (reports dataloaders dataset_sizes is_inception).
Local Abbreviation evaluate := (evaluate dataloaders dataset_sizes is_inception).
Local Abbreviation history := (history dataloaders dataset_sizes is_inception).
Local Abbreviation batch_stats := (batch_stats is_inception).

Lemma batch_pass_calls (ph : phase) (s : run T) (b : B) :
  calls (batch_pass ph s b).1.1 = calls s ++ batch_events ph.
Proof.
  unfold batch_pass, batch_events, forward, call.
  destruct ph; simpl; rewrite ?andb_true_r, ?andb_false_r; simpl;
    try destruct is_inception; simpl;
    try destruct (model_call_aux _ b) as [[o a] t];
    try destruct (model_call _ b) as [o t];
    simpl; rewrite <- ?app_assoc; reflexivity.
Qed.

Lemma batch_step_state (ph : phase) (r : running T) (b : B) :
  r_state (batch_step ph r b) = (batch_pass ph (r_state r) b).1.1.
Proof.
  unfold batch_step.
  destruct (batch_pass ph (r_state r) b) as [[s l] c]. reflexivity.
Qed.

Lemma fold_batch_calls (ph : phase) (batches : list B) (r : running T) :
  calls (r_state (fold_left (batch_step ph) batches r))
  = calls (r_state r) ++ per_batch (batch_events ph) batches.
Proof.
  revert r. induction batches as [| b bs IH]; intros r; simpl.
  - unfold per_batch. simpl. rewrite app_nil_r. reflexivity.
  - rewrite IH, batch_step_state, batch_pass_calls.
    unfold per_batch. simpl. rewrite <- app_assoc. reflexivity.
Qed.

Lemma batch_step_loss (ph : phase) (r : running T) (b : B) :
  running_loss (batch_step ph r b)
  = (running_loss r
     + (batch_pass ph (r_state r) b).1.2 * inject_Z (batch_items b))%Q.
Proof.
  unfold batch_step.
  destruct (batch_pass ph (r_state r) b) as [[s l] c]. reflexivity.
Qed.

Lemma batch_step_corrects (ph : phase) (r : running T) (b : B) :
  running_corrects (batch_step ph r b)
  = TensorCount (count_value (running_corrects r)
                 + (batch_pass ph (r_state r) b).2).
Proof.
  unfold batch_step.
  destruct (batch_pass ph (r_state r) b) as [[s l] c]. reflexivity.
Qed.

Lemma fold_batch_loss (ph : phase) (batches : list B) (r : running T) :
  (running_loss (fold_left (batch_step ph) batches r)
   == running_loss r + weighted_loss (batch_stats ph (r_state r) batches))%Q.
Proof.
  revert r. induction batches as [| b bs IH]; intros r; simpl.
  - ring.
  - rewrite IH, batch_step_loss, batch_step_state.
    destruct (batch_pass ph (r_state r) b) as [[s l] c]. simpl. ring.
Qed.

Lemma fold_batch_corrects (ph : phase) (batches : list B) (r : running T) :
  count_value (running_corrects (fold_left (batch_step ph) batches r))
  = count_value (running_corrects r)
    + total_corrects (batch_stats ph (r_state r) batches).
Proof.
  revert r. induction batches as [| b bs IH]; intros r; simpl.
  - lia.
  - rewrite IH, batch_step_corrects, batch_step_state.
    destruct (batch_pass ph (r_state r) b) as [[s l] c]. simpl. lia.
Qed.

Lemma fold_batch_tensor (ph : phase) (batches : list B) (r : running T) :
  batches <> [] \/ (exists z, running_corrects r = TensorCount z) ->
  exists z,
    running_corrects (fold_left (batch_step ph) batches r) = TensorCount z.
Proof.
  revert r. induction batches as [| b bs IH]; intros r H; simpl.
  - destruct H as [H | H]; [congruence | exact H].
  - apply IH. right. rewrite batch_step_corrects. eexists. reflexivity.
Qed.

(** [run_phase], with the loader's pair taken apart. *)
Lemma run_phase_unfold (ph : phase) (s : run T) :
  run_phase ph s
  = let r := fold_left (batch_step ph) (phase_batches ph s)
               (mkRunning (phase_start ph s) 0%Q (IntCount 0)) in
    let* epoch_loss :=
      if dataset_sizes ph =? 0 then Raise ZeroDivisionError
      else Ok (running_loss r / inject_Z (dataset_sizes ph))%Q in
    let* corrects := count_double (running_corrects r) in
    Ok (r_state r,
        mkResult ph epoch_loss (corrects / inject_Z (dataset_sizes ph))%Q).
Proof.
  unfold run_phase, phase_batches, phase_start.
  destruct (dataloaders ph (torch (enter_phase ph s))) as [bs t].
  reflexivity.
Qed.

(** A phase over a dataset that is not empty returns, and reports the
    weighted mean loss and the accuracy. *)
Lemma run_phase_reports (ph : phase) (s : run T) :
  dataset_sizes ph <> 0 -> phase_batches ph s <> [] ->
  exists s' r,
    run_phase ph s = Ok (s', r)
    /\ reports ph s r
    /\ calls s'
       = calls (enter_phase ph s) ++ [Iterate ph]
         ++ per_batch (batch_events ph) (phase_batches ph s).
Proof.
  intros Hsize Hbs. rewrite run_phase_unfold. cbv zeta.
  set (r0 := mkRunning (phase_start ph s) 0%Q (IntCount 0)).
  destruct (Z.eqb_spec (dataset_sizes ph) 0) as [E | _]; [contradiction |].
  destruct (fold_batch_tensor ph (phase_batches ph s) r0 (or_introl Hbs))
    as [z Hz].
  pose proof (fold_batch_corrects ph (phase_batches ph s) r0) as Hc.
  pose proof (fold_batch_loss ph (phase_batches ph s) r0) as Hl.
  pose proof (fold_batch_calls ph (phase_batches ph s) r0) as Hcalls.
  rewrite Hz in *. simpl in Hc, Hl, Hcalls |- *.
  eexists. eexists. split; [reflexivity |].
  split; [split; [reflexivity | split] |].
  - simpl. unfold phase_stats. rewrite Hl. field.
    intros H. apply Hsize.
    unfold Qeq in H. simpl in H. lia.
  - simpl. unfold phase_stats. rewrite Hc. reflexivity.
  - rewrite Hcalls. rewrite <- app_assoc. reflexivity.
Qed.

(** Whenever a phase returns, it reports the weighted mean loss and
    the accuracy, and has made the calls of one pass. *)
Lemma run_phase_inv (ph : phase) (s s' : run T) (r : Result) :
  run_phase ph s = Ok (s', r) ->
  reports ph s r
  /\ calls s'
     = calls (enter_phase ph s) ++ [Iterate ph]
       ++ per_batch (batch_events ph) (phase_batches ph s).
Proof.
  rewrite run_phase_unfold. cbv zeta.
  set (r0 := mkRunning (phase_start ph s) 0%Q (IntCount 0)).
  pose proof (fold_batch_corrects ph (phase_batches ph s) r0) as Hc.
  pose proof (fold_batch_loss ph (phase_batches ph s) r0) as Hl.
  pose proof (fold_batch_calls ph (phase_batches ph s) r0) as Hcalls.
  destruct (Z.eqb_spec (dataset_sizes ph) 0) as [E | Hsize];
    [discriminate |].
  destruct (running_corrects (fold_left (batch_step ph) (phase_batches ph s) r0))
    as [z | z]; [discriminate |].
  simpl in Hc, Hl, Hcalls |- *. intros [= <- <-].
  split; [split; [reflexivity | split] |].
  - simpl. unfold phase_stats. rewrite Hl. field.
    intros H. apply Hsize. unfold Qeq in H. simpl in H. lia.
  - simpl. unfold phase_stats. rewrite Hc. reflexivity.
  - rewrite Hcalls. rewrite <- app_assoc. reflexivity.
Qed.

(** The body of the loop over epochs, phase by phase. *)
Lemma epoch_unfold (l : loop T W) :
  epoch l
  = let* '(s1, r1) := run_phase train (l_state l) in
    let* '(s2, r2) := run_phase test s1 in
    Ok (if Qgt_bool (r_acc r2) (best_acc l) then
          mkLoop (mkRun (torch s2) (calls s2 ++ [Snapshot])) (r_acc r2)
            (model_state_dict (torch s2)) (printed l ++ [[r1; r2]])
        else
          mkLoop s2 (best_acc l) (best_model_wts l)
            (printed l ++ [[r1; r2]])).
Proof.
  unfold epoch, phase_step.
  destruct (run_phase train (l_state l)) as [[s1 r1] | e]; [| reflexivity].
  simpl.
  destruct (run_phase test s1) as [[s2 r2] | e]; [| reflexivity].
  simpl. destruct (Qgt_bool (r_acc r2) (best_acc l)); reflexivity.
Qed.

Lemma epoch_inv (l l' : loop T W) :
  epoch l = Ok l' ->
  exists s1 r1 s2 r2,
    run_phase train (l_state l) = Ok (s1, r1)
    /\ run_phase test s1 = Ok (s2, r2)
    /\ l' = (if Qgt_bool (r_acc r2) (best_acc l) then
               mkLoop (mkRun (torch s2) (calls s2 ++ [Snapshot])) (r_acc r2)
                 (model_state_dict (torch s2)) (printed l ++ [[r1; r2]])
             else
               mkLoop s2 (best_acc l) (best_model_wts l)
                 (printed l ++ [[r1; r2]])).
Proof.
  rewrite epoch_unfold.
  destruct (run_phase train (l_state l)) as [[s1 r1] | e] eqn:E1;
    [| discriminate].
  simpl.
  destruct (run_phase test s1) as [[s2 r2] | e] eqn:E2; [| discriminate].
  simpl. intros [= <-]. exists s1, r1, s2, r2.
  split; [reflexivity | split; [exact E2 | reflexivity]].
Qed.

Lemma enter_train_calls (s : run T) :
  calls (enter_phase train s)
  = calls s ++ [OptimizerStep; SchedulerStep; SetTrain].
Proof. simpl. rewrite <- !app_assoc. reflexivity. Qed.

Lemma enter_test_calls (s : run T) :
  calls (enter_phase test s) = calls s ++ [SetEval].
Proof. reflexivity. Qed.

(** The calls of one epoch. *)
Lemma epoch_calls (l l' : loop T W) :
  epoch l = Ok l' ->
  exists s1 r1 (snapshot : bool),
    run_phase train (l_state l) = Ok (s1, r1)
    /\ calls (l_state l')
       = calls (l_state l)
         ++ [OptimizerStep; SchedulerStep; SetTrain; Iterate train]
         ++ per_batch (train_batch_events is_inception)
              (phase_batches train (l_state l))
         ++ [SetEval; Iterate test]
         ++ per_batch eval_batch_events (phase_batches test s1)
         ++ (if snapshot then [Snapshot] else []).
Proof.
  intros H. destruct (epoch_inv l l' H) as (s1 & r1 & s2 & r2 & E1 & E2 & ->).
  destruct (run_phase_inv train _ _ _ E1) as [_ C1].
  destruct (run_phase_inv test _ _ _ E2) as [_ C2].
  rewrite enter_train_calls in C1. rewrite enter_test_calls in C2.
  exists s1, r1, (Qgt_bool (r_acc r2) (best_acc l)).
  split; [exact E1 |].
  destruct (Qgt_bool (r_acc r2) (best_acc l)); simpl calls;
    rewrite C2, C1; unfold batch_events; simpl;
    rewrite <- ?app_assoc; simpl; rewrite ?app_nil_r; reflexivity.
Qed.

Local Abbreviation replay := (replay dataloaders).
Local Abbreviation batch_actions :=
  (fun (ph : phase) (b : B) =>
     if phase_eqb ph train then train_batch_actions (W := W) is_inception b
     else eval_batch_actions b).

Lemma replay_app (a1 a2 : list (action B W)) (t : T) :
  replay (a1 ++ a2) t = replay a2 (replay a1 t).
Proof. unfold replay. apply fold_left_app. Qed.

(** What a batch does to the library state is what its calls do, in
    their order. *)
Lemma batch_pass_torch (ph : phase) (s : run T) (b : B) :
  torch (batch_pass ph s b).1.1 = replay (batch_actions ph b) (torch s).
Proof.
  unfold batch_pass, forward, call, replay.
  destruct ph; simpl; rewrite ?andb_true_r, ?andb_false_r; simpl;
    try destruct is_inception; simpl;
    try destruct (model_call_aux _ b) as [[o a] t];
    try destruct (model_call _ b) as [o t];
    reflexivity.
Qed.

Lemma fold_batch_torch (ph : phase) (batches : list B) (r : running T) :
  torch (r_state (fold_left (batch_step ph) batches r))
  = replay (flat_map (batch_actions ph) batches) (torch (r_state r)).
Proof.
  revert r. induction batches as [| b bs IH]; intros r.
  - reflexivity.
  - simpl fold_left. rewrite IH, batch_step_state, batch_pass_torch.
    simpl flat_map. rewrite replay_app. reflexivity.
Qed.

Lemma run_phase_torch (ph : phase) (s s' : run T) (r : Result) :
  run_phase ph s = Ok (s', r) ->
  torch s'
  = replay ((if phase_eqb ph train
             then [DoOptimizerStep; DoSchedulerStep; DoSetTrain]
             else [DoSetEval])
            ++ [DoIterate ph]
            ++ flat_map (batch_actions ph) (phase_batches ph s))
      (torch s).
Proof.
  rewrite run_phase_unfold. cbv zeta.
  set (r0 := mkRunning (phase_start ph s) 0%Q (IntCount 0)).
  pose proof (fold_batch_torch ph (phase_batches ph s) r0) as Ht.
  destruct (dataset_sizes ph =? 0); [discriminate |].
  destruct (running_corrects (fold_left (batch_step ph) (phase_batches ph s) r0))
    as [z | z]; [discriminate |].
  simpl. intros [= <- _]. rewrite Ht, !replay_app.
  destruct ph; reflexivity.
Qed.

(** The library state after one epoch. *)
Lemma epoch_torch (l l' : loop T W) (s1 : run T) (r1 : Result) :
  epoch l = Ok l' ->
  run_phase train (l_state l) = Ok (s1, r1) ->
  torch (l_state l')
  = replay ([DoOptimizerStep; DoSchedulerStep; DoSetTrain; DoIterate train]
            ++ flat_map (train_batch_actions is_inception)
                 (phase_batches train (l_state l))
            ++ [DoSetEval; DoIterate test]
            ++ flat_map eval_batch_actions (phase_batches test s1))
      (torch (l_state l)).
Proof.
  intros H E1.
  destruct (epoch_inv l l' H) as (s1' & r1' & s2 & r2 & E1' & E2 & ->).
  rewrite E1 in E1'. injection E1' as <- <-.
  pose proof (run_phase_torch train _ _ _ E1) as T1.
  pose proof (run_phase_torch test _ _ _ E2) as T2.
  simpl in T1, T2.
  assert (Ht : torch (l_state
                 (if Qgt_bool (r_acc r2) (best_acc l) then
                    mkLoop (mkRun (torch s2) (calls s2 ++ [Snapshot]))
                      (r_acc r2) (model_state_dict (torch s2))
                      (printed l ++ [[r1; r2]])
                  else
                    mkLoop s2 (best_acc l) (best_model_wts l)
                      (printed l ++ [[r1; r2]])))
               = torch s2).
  { destruct (Qgt_bool (r_acc r2) (best_acc l)); reflexivity. }
  rewrite Ht, T2, T1.
  change ([DoOptimizerStep; DoSchedulerStep; DoSetTrain; DoIterate train]
          ++ flat_map (train_batch_actions is_inception)
               (phase_batches train (l_state l))
          ++ [DoSetEval; DoIterate test]
          ++ flat_map eval_batch_actions (phase_batches test s1))
    with (([DoOptimizerStep; DoSchedulerStep; DoSetTrain] ++ [DoIterate train]
           ++ flat_map (train_batch_actions (W := W) is_inception)
                (phase_batches train (l_state l)))
          ++ ([DoSetEval] ++ [DoIterate test]
              ++ flat_map eval_batch_actions (phase_batches test s1))).
  rewrite replay_app. reflexivity.
Qed.

End TrainFacts.

Lemma count_per_batch {B : Type} (events : list event) (batches : list B)
    (e : event) :
  count_occ event_eq_dec (per_batch events batches) e
  = (length batches * count_occ event_eq_dec events e)%nat.
Proof.
  unfold per_batch. induction batches as [| b bs IH]; simpl.
  - reflexivity.
  - rewrite count_occ_app, IH. reflexivity.
Qed.

Lemma label_train_batches {B W : Type} (aux : bool) (batches : list B) :
  map label (flat_map (train_batch_actions (W := W) aux) batches)
  = per_batch (train_batch_events aux) batches.
Proof.
  unfold per_batch. induction batches as [| b bs IH]; simpl; [reflexivity |].
  rewrite IH. reflexivity.
Qed.

Lemma label_eval_batches {B W : Type} (batches : list B) :
  map label (flat_map (eval_batch_actions (W := W)) batches)
  = per_batch eval_batch_events batches.
Proof.
  unfold per_batch. induction batches as [| b bs IH]; simpl; [reflexivity |].
  rewrite IH. reflexivity.
Qed.

(** C5: in every epoch the library state goes through these calls, in
    this order: an optimizer step and then the one scheduler step of the
    epoch, before the first batch is drawn; for every batch of the
    training phase a backward pass followed by an optimizer step; for
    the batches of the evaluation phase neither.  The recorded events
    are the labels of these calls, so an epoch has one scheduler step
    whatever the number of batches, and one optimizer step more than it
    has backward passes. *)
Theorem scheduler_steps_once_per_training_phase :
  forall (T B Out W : Type) (TC : Torch T B Out W)
         (dataloaders : phase -> T -> list B * T) (dataset_sizes : phase -> Z)
         (is_inception : bool) (l l' : loop T W),
    epoch dataloaders dataset_sizes is_inception l = Ok l' ->
    exists (s1 : run T) (r1 : Result) (snapshot : bool),
      run_phase dataloaders dataset_sizes is_inception train (l_state l)
      = Ok (s1, r1)
      /\ let train_batches := phase_batches dataloaders train (l_state l) in
         let test_batches := phase_batches dataloaders test s1 in
         let actions : list (action B W) :=
           [DoOptimizerStep; DoSchedulerStep; DoSetTrain; DoIterate train]
           ++ flat_map (train_batch_actions is_inception) train_batches
           ++ [DoSetEval; DoIterate test]
           ++ flat_map eval_batch_actions test_batches in
         let events :=
           map label actions ++ (if snapshot then [Snapshot] else []) in
         torch (l_state l') = replay dataloaders actions (torch (l_state l))
         /\ calls (l_state l') = calls (l_state l) ++ events
         /\ count_occ event_eq_dec events SchedulerStep = 1%nat
         /\ count_occ event_eq_dec events Backward = length train_batches
         /\ count_occ event_eq_dec events OptimizerStep
            = S (length train_batches).
Proof.
  intros T B Out W TC dl ds inc l l' H.
  destruct (epoch_calls dl ds inc l l' H) as (s1 & r1 & snap & E1 & C).
  exists s1, r1, snap. split; [exact E1 |]. cbv zeta.
  split; [exact (epoch_torch dl ds inc l l' s1 r1 H E1) |].
  rewrite !map_app, label_train_batches, label_eval_batches. simpl map.
  split; [rewrite C, <- !app_assoc; reflexivity |].
  repeat split;
    rewrite !count_occ_app, !count_per_batch;
    destruct snap; simpl; lia.
Qed.

(** ** The best snapshot *)

Lemma Qgt_bool_true (x y : Q) : Qgt_bool x y = true <-> (y < x)%Q.
Proof.
  unfold Qgt_bool. rewrite negb_true_iff.
  split.
  - intros H. apply Qnot_le_lt. intros L.
    apply Qle_bool_iff in L. congruence.
  - intros H. destruct (Qle_bool x y) eqn:E; [| reflexivity].
    apply Qle_bool_iff in E. exfalso. exact (Qlt_not_le _ _ H E).
Qed.

Lemma Qgt_bool_false (x y : Q) : Qgt_bool x y = false <-> (x <= y)%Q.
Proof.
  unfold Qgt_bool. rewrite negb_false_iff. apply Qle_bool_iff.
Qed.

(** What the iteration of [pick] retains: the initial pair when no
    accuracy exceeds the initial one, and otherwise the first pair of
    the run whose accuracy is maximal. *)
Lemma best_of_spec {W : Type} (h : list (Q * W)) (init : Q * W) :
  (init.1 <= (best_of init h).1)%Q
  /\ (forall i e, h !! i = Some e -> (e.1 <= (best_of init h).1)%Q)
  /\ (best_of init h = init
      \/ exists j e,
           h !! j = Some e /\ best_of init h = e /\ (init.1 < e.1)%Q
           /\ forall i e', (i < j)%nat -> h !! i = Some e' -> (e'.1 < e.1)%Q).
Proof.
  revert init. induction h as [| e t IH]; intros init; unfold best_of; simpl.
  - split; [apply Qle_refl |]. split; [intros i e H; discriminate H |].
    left. reflexivity.
  - fold (best_of (pick init e) t).
    destruct (IH (pick init e)) as (Hge & Hall & Hcase).
    unfold pick in *.
    destruct (Qgt_bool e.1 init.1) eqn:G.
    + apply Qgt_bool_true in G.
      split; [eapply Qle_trans; [apply Qlt_le_weak; exact G | exact Hge] |].
      split.
      * intros [| i] e' H; simpl in H.
        -- injection H as <-. exact Hge.
        -- eapply Hall; exact H.
      * right. destruct Hcase as [Hsame | (j & e2 & Hj & Hb & Hlt & Hfirst)].
        -- exists O, e. split; [reflexivity |]. split; [exact Hsame |].
           split; [exact G |]. intros i e' Hi. lia.
        -- exists (S j), e2. split; [exact Hj |]. split; [exact Hb |].
           split; [eapply Qlt_trans; eassumption |].
           intros [| i] e' Hi H; simpl in H.
           ++ injection H as <-. exact Hlt.
           ++ eapply Hfirst; [| exact H]. lia.
    + apply Qgt_bool_false in G.
      split; [exact Hge |].
      split.
      * intros [| i] e' H; simpl in H.
        -- injection H as <-. eapply Qle_trans; eassumption.
        -- eapply Hall; exact H.
      * destruct Hcase as [Hsame | (j & e2 & Hj & Hb & Hlt & Hfirst)].
        -- left. exact Hsame.
        -- right. exists (S j), e2. split; [exact Hj |]. split; [exact Hb |].
           split; [exact Hlt |].
           intros [| i] e' Hi H; simpl in H.
           ++ injection H as <-. eapply Qle_lt_trans; eassumption.
           ++ eapply Hfirst; [| exact H]. lia.
Qed.

Section BestFacts.

Context {T B Out W : Type} `{!Torch T B Out W}.
Variable dataloaders : phase -> T -> list B * T.
Variable dataset_sizes : phase -> Z.
Variable is_inception : bool.

Local Abbreviation run_phase := (run_phase dataloaders dataset_sizes is_inception).
Local Abbreviation epoch := (epoch dataloaders dataset_sizes is_inception).
Local Abbreviation epochs := (epochs dataloaders dataset_sizes is_inception).
Local Abbreviation evaluate := (evaluate dataloaders dataset_sizes is_inception).
Local Abbreviation history := (history dataloaders dataset_sizes is_inception).
Local Abbreviation train_model :=
  (train_model dataloaders dataset_sizes is_inception).

(** One epoch updates the best pair by [pick]. *)
Lemma epoch_best (l l' : loop T W) :
  epoch l = Ok l' ->
  exists e, evaluate l = Ok e /\ best l' = pick (best l) e.
Proof.
  intros H.
  destruct (epoch_inv dataloaders dataset_sizes is_inception l l' H)
    as (s1 & r1 & s2 & r2 & E1 & E2 & ->).
  exists (r_acc r2, model_state_dict (torch s2)).
  unfold evaluate. rewrite E1. simpl. rewrite E2. simpl.
  split; [reflexivity |].
  unfold pick, best. simpl.
  destruct (Qgt_bool (r_acc r2) (best_acc l)); reflexivity.
Qed.

Lemma epochs_best (n : nat) (l l' : loop T W) :
  epochs n l = Ok l' ->
  exists h,
    history n l = Ok h /\ length h = n /\ best l' = best_of (best l) h.
Proof.
  revert l. induction n as [| n IH]; intros l; simpl.
  - intros [= <-]. exists []. repeat split.
  - destruct (epoch l) as [l1 |] eqn:E; [| discriminate]. simpl.
    intros H. destruct (IH l1 H) as (h & Hh & Hlen & Hb).
    destruct (epoch_best l l1 E) as (e & He & Hp).
    exists (e :: h). rewrite He. simpl. rewrite Hh. simpl.
    split; [reflexivity |]. split; [congruence |].
    rewrite Hb, Hp. reflexivity.
Qed.

Lemma train_model_inv (model : T) (num_epochs : Z) (l : loop T W) :
  train_model model num_epochs = Ok l ->
  exists l_end,
    epochs (Z.to_nat num_epochs) (start model) = Ok l_end
    /\ best l = best l_end
    /\ printed l = printed l_end
    /\ torch (l_state l)
       = model_load_state_dict (best_model_wts l) (torch (l_state l_end)).
Proof.
  unfold train_model.
  destruct (epochs (Z.to_nat num_epochs) (start model)) as [l_end |];
    [| discriminate].
  simpl. intros [= <-]. exists l_end. repeat split.
Qed.

End BestFacts.

(** C1, as amended: an epoch replaces the best accuracy and the snapshot
    exactly when its test accuracy is strictly above the best so far,
    and keeps both otherwise; the model returned has the best snapshot
    loaded, which is the end-of-epoch weights of the first epoch that
    reaches the maximal test accuracy when that accuracy is positive,
    and the weights saved before the first epoch when no epoch has a
    positive test accuracy. *)
Theorem best_snapshot_is_first_maximal_epoch :
  forall (T B Out W : Type) (TC : Torch T B Out W)
         (dataloaders : phase -> T -> list B * T) (dataset_sizes : phase -> Z)
         (is_inception : bool),
    (forall l l' : loop T W,
        epoch dataloaders dataset_sizes is_inception l = Ok l' ->
        exists acc w,
          evaluate dataloaders dataset_sizes is_inception l = Ok (acc, w)
          /\ ((best_acc l < acc)%Q -> best l' = (acc, w))
          /\ (~ (best_acc l < acc)%Q -> best l' = best l))
    /\ (forall (model : T) (num_epochs : Z) (l : loop T W),
          train_model dataloaders dataset_sizes is_inception model num_epochs
          = Ok l ->
          exists l_end h,
            epochs dataloaders dataset_sizes is_inception
              (Z.to_nat num_epochs) (start model) = Ok l_end
            /\ history dataloaders dataset_sizes is_inception
                 (Z.to_nat num_epochs) (start model) = Ok h
            /\ length h = Z.to_nat num_epochs
            /\ torch (l_state l)
               = model_load_state_dict (best_model_wts l)
                   (torch (l_state l_end))
            /\ (forall i e, h !! i = Some e -> (e.1 <= best_acc l)%Q)
            /\ ((best l = (0%Q, model_state_dict model)
                 /\ forall i e, h !! i = Some e -> (e.1 <= 0)%Q)
                \/ exists j e,
                     h !! j = Some e /\ best l = e /\ (0 < e.1)%Q
                     /\ forall i e',
                          (i < j)%nat -> h !! i = Some e' -> (e'.1 < e.1)%Q)).
Proof.
  intros T B Out W TC dl ds inc. split.
  - intros l l' H.
    destruct (epoch_best dl ds inc l l' H) as ([acc w] & He & Hp).
    exists acc, w. split; [exact He |].
    unfold pick in Hp. simpl in Hp. split; intros G.
    + apply Qgt_bool_true in G. rewrite G in Hp. exact Hp.
    + destruct (Qgt_bool acc (best_acc l)) eqn:G'; [| exact Hp].
      apply Qgt_bool_true in G'. contradiction.
  - intros model n l H.
    destruct (train_model_inv dl ds inc model n l H)
      as (l_end & He & Hb & _ & Ht).
    destruct (epochs_best dl ds inc _ _ _ He) as (h & Hh & Hlen & Hbest).
    exists l_end, h.
    split; [exact He |]. split; [exact Hh |]. split; [exact Hlen |].
    split; [exact Ht |].
    destruct (best_of_spec h (best (start model))) as (_ & Hall & Hcase).
    rewrite <- Hbest, <- Hb in Hall, Hcase.
    split; [exact Hall |].
    destruct Hcase as [Hsame | (j & e & Hj & Hbe & Hlt & Hfirst)].
    + left. split; [exact Hsame |].
      intros i e Hi. specialize (Hall i e Hi).
      rewrite Hsame in Hall. exact Hall.
    + right. exists j, e. repeat split; assumption.
Qed.

(** With two epochs of test accuracy 0 the model returned has the
    weights saved before training, which are those of neither epoch. *)
Lemma zero_accuracy_run_keeps_initial_weights :
  ~ carries_best_epoch (Torch0 := Toy.torch [0; 0])
      Toy.dataloaders Toy.dataset_sizes false O 2.
Proof.
  unfold carries_best_epoch. intros H.
  destruct (train_model (Torch0 := Toy.torch [0; 0])
              Toy.dataloaders Toy.dataset_sizes false O 2) as [l |] eqn:E;
    [| vm_compute in E; discriminate E].
  destruct (H l eq_refl) as (l_end & h & j & e & E1 & E2 & Hj & _ & Ht).
  vm_compute in E. injection E as <-.
  vm_compute in E1. injection E1 as <-.
  vm_compute in E2. injection E2 as <-.
  destruct j as [| [| j]]; simpl in Hj; try discriminate Hj;
    injection Hj as <-; vm_compute in Ht; discriminate Ht.
Qed.

Lemma best_snapshot_is_first_maximal_epoch_witness :
  exists l,
    Toy.train [5; 7; 6; 9; 8] 5 = Ok l
    /\ best l = ((9 # 10)%Q, 8%nat)
    /\ torch (l_state l) = 8%nat.
Proof.
  destruct (Toy.train [5; 7; 6; 9; 8] 5) as [l |] eqn:E;
    [| vm_compute in E; discriminate E].
  exists l. split; [reflexivity |].
  destruct (proj2 (best_snapshot_is_first_maximal_epoch nat Z nat nat
                     (Toy.torch [5; 7; 6; 9; 8]) Toy.dataloaders
                     Toy.dataset_sizes false) O 5 l E)
    as (l_end & h & _ & _ & _ & Ht & _ & _).
  simpl in Ht. rewrite Ht.
  vm_compute in E. injection E as <-.
  split; reflexivity.
Defined.

(** ** Epoch metrics *)

(** C8: a phase returns once its dataset is not empty; whenever it
    returns, the loss it reports is the sum over its batches of batch
    loss times batch item count, divided by the item count of the phase,
    and the accuracy it reports is the number of correct predictions
    over that item count; and the line an epoch prints holds the reports
    of its training and its test phase. *)
Theorem epoch_metrics_are_weighted_means :
  forall (T B Out W : Type) (TC : Torch T B Out W)
         (dataloaders : phase -> T -> list B * T) (dataset_sizes : phase -> Z)
         (is_inception : bool),
    (forall (ph : phase) (s : run T),
        dataset_sizes ph <> 0 ->
        phase_batches dataloaders ph s <> [] ->
        exists s' r,
          run_phase dataloaders dataset_sizes is_inception ph s = Ok (s', r))
    /\ (forall (ph : phase) (s s' : run T) (r : Result),
          run_phase dataloaders dataset_sizes is_inception ph s = Ok (s', r) ->
          let stats := phase_stats dataloaders is_inception ph s in
          r_phase r = ph
          /\ (r_loss r
              == weighted_loss stats / inject_Z (dataset_sizes ph))%Q
          /\ (r_acc r
              == inject_Z (total_corrects stats)
                 / inject_Z (dataset_sizes ph))%Q)
    /\ (forall l l' : loop T W,
          epoch dataloaders dataset_sizes is_inception l = Ok l' ->
          exists s1 r1 s2 r2,
            run_phase dataloaders dataset_sizes is_inception train (l_state l)
            = Ok (s1, r1)
            /\ run_phase dataloaders dataset_sizes is_inception test s1
               = Ok (s2, r2)
            /\ printed l' = printed l ++ [[r1; r2]]).
Proof.
  intros T B Out W TC dl ds inc. split; [| split].
  - intros ph s Hsize Hbs.
    destruct (run_phase_reports dl ds inc ph s Hsize Hbs) as (s' & r & E & _).
    exists s', r. exact E.
  - intros ph s s' r E.
    destruct (run_phase_inv dl ds inc ph s s' r E) as [R _]. exact R.
  - intros l l' H.
    destruct (epoch_inv dl ds inc l l' H) as (s1 & r1 & s2 & r2 & E1 & E2 & ->).
    exists s1, r1, s2, r2. split; [exact E1 |]. split; [exact E2 |].
    destruct (Qgt_bool (r_acc r2) (best_acc l)); reflexivity.
Qed.

Lemma epoch_metrics_are_weighted_means_witness :
  exists s' r,
    run_phase (Torch0 := Toy.torch [7]) Toy.dataloaders Toy.dataset_sizes
      false test (mkRun 2%nat []) = Ok (s', r)
    /\ (r_loss r == 1 # 2)%Q
    /\ (r_acc r == 7 # 10)%Q.
Proof.
  pose proof (epoch_metrics_are_weighted_means nat Z nat nat (Toy.torch [7])
                Toy.dataloaders Toy.dataset_sizes false) as (Hret & Hrep & _).
  destruct (Hret test (mkRun 2%nat [])) as (s' & r & E).
  - vm_compute. discriminate.
  - vm_compute. discriminate.
  - exists s', r. split; [exact E |].
    destruct (Hrep test _ s' r E) as (_ & Hl & Ha).
    rewrite Hl, Ha. split; vm_compute; reflexivity.
Defined.

Lemma scheduler_steps_once_per_training_phase_witness :
  exists l',
    epoch (Torch0 := Recorder.torch) Recorder.dataloaders
      Recorder.dataset_sizes false (start (Torch0 := Recorder.torch) [])
    = Ok l'
    /\ torch (l_state l')
       = [OptimizerStep; SchedulerStep; SetTrain; Iterate train;
          ZeroGrad; Forward false; Backward; OptimizerStep;
          ZeroGrad; Forward false; Backward; OptimizerStep;
          ZeroGrad; Forward false; Backward; OptimizerStep;
          SetEval; Iterate test;
          ZeroGrad; Forward false; ZeroGrad; Forward false;
          ZeroGrad; Forward false]
    /\ calls (l_state l') = Snapshot :: torch (l_state l') ++ [Snapshot].
Proof.
  destruct (epoch (Torch0 := Recorder.torch) Recorder.dataloaders
              Recorder.dataset_sizes false
              (start (Torch0 := Recorder.torch) [])) as [l' |] eqn:E;
    [| vm_compute in E; discriminate E].
  exists l'. split; [reflexivity |].
  destruct (scheduler_steps_once_per_training_phase (list event) Z unit
              (list event) Recorder.torch Recorder.dataloaders
              Recorder.dataset_sizes false _ l' E)
    as (s1 & r1 & snapshot & E1 & Ht & C & _).
  rewrite C, Ht. vm_compute in E1. injection E1 as <- <-.
  destruct snapshot; [split; reflexivity |].
  vm_compute in E. injection E as <-. vm_compute in C. discriminate C.
Defined.

(** * Further properties *)

Example output_path_default :
  output_path "vgg16" 1565298691256 None
  = "/tmp/oneoffcoder-1565298691256-vgg16.pth".
Proof. vm_compute. reflexivity. Qed.

Example output_path_strips :
  output_path "vgg16" 0 (Some " /data/out ")
  = "/data/out/oneoffcoder-0-vgg16.pth".
Proof. vm_compute. reflexivity. Qed.

Example str_int_negative : str_int (-12) = "-12".
Proof. vm_compute. reflexivity. Qed.

(** ** Seeding and the Inception flag *)

(** X1: the seed of a run is independent of the clock exactly when the
    seed given on the command line is positive; for zero and negative
    seeds it is the clock reading. *)
Theorem main_seed_ignores_clock_iff_positive :
  forall s : Z,
    ((forall t1 t2 : Z, main_seed s t1 = main_seed s t2) <-> 0 < s)
    /\ (s <= 0 -> forall t : Z, main_seed s t = t).
Proof.
  intros s. split; [split |].
  - intros H. specialize (H 0 1). unfold main_seed in H.
    destruct (Z.gtb_spec s 0); [lia | discriminate H].
  - intros H t1 t2. rewrite !main_seed_positive by exact H. reflexivity.
  - intros H t. unfold main_seed.
    destruct (Z.gtb_spec s 0); [lia | reflexivity].
Qed.

Lemma main_seed_ignores_clock_iff_positive_witness :
  main_seed (-1) 1565298691256 = 1565298691256
  /\ main_seed 0 1565298691256 = 1565298691256.
Proof.
  split.
  - exact (proj2 (main_seed_ignores_clock_iff_positive (-1)) ltac:(lia) _).
  - exact (proj2 (main_seed_ignores_clock_iff_positive 0) ltac:(lia) _).
Defined.

(** X2: the training loop is told the model is Inception v3 exactly for
    the name whose input size is 299. *)
Theorem determine_inception_iff_input_size_299 :
  forall model_type : string,
    determine_inception model_type = true <-> get_input_size model_type = 299.
Proof.
  intros model_type. unfold determine_inception.
  destruct (get_input_size_cases model_type) as [[-> R] | [E R]]; rewrite R.
  - simpl. split; reflexivity.
  - destruct (String.eqb_spec model_type "inception_v3"); [contradiction |].
    split; discriminate.
Qed.

(** ** The model factory and the optimizer's parameters *)

(** A name either has a branch of its own or is treated as
    inception_v3. *)
Lemma create_model_cases (name : string) :
  In name branch_names
  \/ forall (n : Z) (feature_extract pretrained : bool),
       create_model name n feature_extract pretrained
       = create_model "inception_v3" n feature_extract pretrained.
Proof.
  destruct (in_dec string_dec name branch_names) as [H | H]; [left; exact H |].
  right. intros n fe pre.
  destruct (string_dec name "inception_v3") as [-> | Hne]; [reflexivity |].
  apply create_model_unknown. unfold supported_names. intros Hin.
  apply in_app_or in Hin. destruct Hin as [Hin | [Hin | []]];
    [contradiction | congruence].
Qed.



(** X4: with feature extraction off, every parameter of the model built
    receives gradients, so selecting the parameters that require
    gradients would hand the optimizer the same list. *)
Theorem no_feature_extract_updates_everything :
  forall (name : string) (n : Z) (pretrained : bool),
    name <> "resnext50_32x4d" ->
    exists m,
      create_model name n false pretrained = Ok m
      /\ params_to_update m true = params_to_update m false
      /\ Forall (fun l => layer_requires_grad l = true) (parameters m).
Proof.
  intros name n pre Hne.
  destruct (create_model_cases name) as [H | H].
  - by_branch H; try congruence; destruct pre; eexists; all_trainable.
  - rewrite H. destruct pre; eexists; all_trainable.
Qed.

Lemma no_feature_extract_updates_everything_witness :
  exists m,
    create_model "densenet121" 3 false true = Ok m
    /\ length (params_to_update m false) = 2%nat.
Proof.
  destruct (no_feature_extract_updates_everything "densenet121" 3 true
              ltac:(discriminate)) as (m & E & _).
  exists m. split; [exact E |].
  vm_compute in E. injection E as <-. reflexivity.
Defined.


(** ** Getting a model *)

(** X6: whatever the path and whatever reading or restoring the weights
    does, [get_model] raises nothing when the factory returns a model
    for the requested name and settings: a failed load never
    surfaces. *)
Theorem get_model_returns_when_factory_returns :
  forall (state_dict : Type)
         (torch_load : string -> result state_dict)
         (load_state_dict : obj -> state_dict -> result obj)
         (model_type : string) (n : Z) (feature_extract pretrained : bool)
         (model_path : option string),
    is_ok (create_model model_type n feature_extract pretrained) = true ->
    is_ok (get_model torch_load load_state_dict model_type n feature_extract
             pretrained model_path).2 = true.
Proof.
  intros sd tl ls mt n fe pre path H.
  unfold get_model. destruct path as [path |]; [| exact H].
  destruct (String.length (strip path) =? 0)%nat; [exact H |].
  destruct (load_model tl ls mt n fe path); [reflexivity | exact H].
Qed.

Lemma get_model_returns_when_factory_returns_witness :
  is_ok (create_model "resnet18" 2 false true) = true
  /\ is_ok (get_model Toy.missing_file Toy.restore "resnet18" 2 false true
              (Some "/tmp/missing.pth")).2 = true.
Proof.
  split; [reflexivity |].
  exact (get_model_returns_when_factory_returns unit Toy.missing_file
           Toy.restore "resnet18" 2 false true (Some "/tmp/missing.pth")
           eq_refl).
Defined.

(** ** Saving the model *)

Lemma to_int_not_nil (z : Z) :
  Z.to_int z <> Decimal.Pos Decimal.Nil /\ Z.to_int z <> Decimal.Neg Decimal.Nil.
Proof.
  split; intros E; pose proof (DecimalZ.of_to z) as H; rewrite E in H;
    simpl in H; subst z; discriminate E.
Qed.

Lemma str_int_inj (a b : Z) : str_int a = str_int b -> a = b.
Proof.
  unfold str_int. intros E.
  apply DecimalZ.to_int_inj.
  destruct (to_int_not_nil a) as [Ha1 Ha2].
  destruct (to_int_not_nil b) as [Hb1 Hb2].
  pose proof (NilZero.isi _ Ha1 Ha2) as Ia.
  pose proof (NilZero.isi _ Hb1 Hb2) as Ib.
  rewrite E in Ia. congruence.
Qed.

Lemma no_dash_digits (d : Decimal.uint) :
  no_dash (NilEmpty.string_of_uint d) = true.
Proof. induction d; simpl; try reflexivity; exact IHd. Qed.

Lemma no_dash_uint (d : Decimal.uint) :
  no_dash (NilZero.string_of_uint d) = true.
Proof.
  destruct d; try reflexivity;
    exact (no_dash_digits _).
Qed.

(** A printed integer is one character followed by digits. *)
Lemma str_int_shape (z : Z) :
  exists c r, str_int z = String c r /\ no_dash r = true.
Proof.
  unfold str_int. destruct (to_int_not_nil z) as [H1 H2].
  destruct (Z.to_int z) as [d | d]; simpl.
  - destruct d; try congruence; simpl;
      eexists; eexists; (split; [reflexivity | apply no_dash_digits]).
  - eexists; eexists. split; [reflexivity | apply no_dash_uint].
Qed.

Lemma dash_split (a b x y : string) :
  no_dash a = true -> no_dash b = true ->
  (a ++ String "-" x)%string = (b ++ String "-" y)%string ->
  a = b /\ x = y.
Proof.
  revert b. induction a as [| c a IH]; intros [| c' b] Ha Hb E; simpl in *.
  - injection E as <-. split; reflexivity.
  - injection E as <- _. simpl in Hb. discriminate Hb.
  - injection E as -> _. simpl in Ha. discriminate Ha.
  - injection E as <- E.
    apply andb_true_iff in Ha as [_ Ha]. apply andb_true_iff in Hb as [_ Hb].
    destruct (IH b Ha Hb E) as [-> ->]. split; reflexivity.
Qed.

Lemma string_app_inv_tail (s1 s2 t : string) :
  (s1 ++ t)%string = (s2 ++ t)%string -> s1 = s2.
Proof.
  intros E.
  assert (L : forall a b,
             list_ascii_of_string (a ++ b)%string
             = list_ascii_of_string a ++ list_ascii_of_string b).
  { intros a b. induction a as [| c a IH]; simpl; [reflexivity |].
    rewrite IH. reflexivity. }
  apply (f_equal list_ascii_of_string) in E. rewrite !L in E.
  apply app_inv_tail in E.
  rewrite <- (string_of_list_ascii_of_string s1),
          <- (string_of_list_ascii_of_string s2), E.
  reflexivity.
Qed.

(** X7: in one output directory, two saved models get the same file
    only when both the timestamp and the model type are the same. *)
Theorem output_path_injective :
  forall (model_type model_type' : string) (ms ms' : Z)
         (output_dir : option string),
    output_path model_type ms output_dir
    = output_path model_type' ms' output_dir ->
    ms = ms' /\ model_type = model_type'.
Proof.
  intros mt mt' ms ms' dir. unfold output_path.
  set (o_dir := match dir with
                | Some d => if (String.length (strip d) =? 0)%nat
                            then "/tmp" else strip d
                | None => "/tmp"
                end).
  intros E.
  apply (inj (String.app o_dir)) in E.
  apply (inj (String.app "/")) in E.
  apply (inj (String.app "oneoffcoder-")) in E.
  destruct (str_int_shape ms) as (c & r & Hs & Hr).
  destruct (str_int_shape ms') as (c' & r' & Hs' & Hr').
  rewrite Hs, Hs' in E. simpl in E. injection E as <- E.
  destruct (dash_split r r' _ _ Hr Hr' E) as [<- E'].
  split.
  - apply str_int_inj. congruence.
  - eapply string_app_inv_tail. exact E'.
Qed.

Lemma output_path_injective_witness :
  output_path "vgg16" 7 (Some "/out") = "/out/oneoffcoder-7-vgg16.pth"
  /\ (7 = 7 /\ "vgg16" = "vgg16").
Proof.
  split; [vm_compute; reflexivity |].
  exact (output_path_injective "vgg16" "vgg16" 7 7 (Some "/out") eq_refl).
Defined.

(** ** Transform pipelines, continued *)

(** X8: overriding never drops a pipeline: the phases of the result are
    those of the defaults, and those among train, test and valid that
    the specifications add. *)
Theorem get_data_transforms_keys :
  forall (pipeline : Type)
         (get_default_transforms : Z -> gmap string pipeline)
         (get_transforms : list transform_spec -> result (gmap string pipeline))
         (input_size : Z) (specs : list transform_spec)
         (arg_transforms : gmap string pipeline),
    get_transforms specs = Ok arg_transforms ->
    exists r,
      get_data_transforms get_default_transforms get_transforms input_size
        (Some specs) = Ok r
      /\ dom r
         = dom (get_default_transforms input_size)
           ∪ (dom arg_transforms ∩ {["train"; "test"; "valid"]}).
Proof.
  intros pipeline gd gt sz specs arg E.
  destruct (get_data_transforms_lookup gd gt sz specs arg "" E) as (r & Hr & _).
  exists r. split; [exact Hr |].
  apply set_eq. intros k.
  destruct (get_data_transforms_lookup gd gt sz specs arg k E) as (r' & Hr' & Hk).
  rewrite Hr in Hr'. injection Hr' as <-.
  rewrite elem_of_union, elem_of_intersection, !elem_of_dom, Hk.
  case_decide as Hd.
  - destruct (arg !! k) as [p |] eqn:Ea.
    + split; [intros _ | intros _; eexists; reflexivity].
      right. split; [eexists; reflexivity | set_solver].
    + split; [intros H; left; exact H |].
      intros [H | [[p Hp] _]]; [exact H | discriminate Hp].
  - split; [intros H; left; exact H |].
    intros [H | [_ Hin]]; [exact H |].
    exfalso. apply Hd. set_solver.
Qed.

Lemma get_data_transforms_keys_witness :
  let specs := [TransformSpec "train" "Resize" "r" "0" "{}";
                TransformSpec "extra" "ToTensor" "tt" "1" "{}"] in
  exists r,
    get_data_transforms Toy.default_transforms Toy.transforms 224 (Some specs)
    = Ok r
    /\ dom r = {["train"; "test"; "valid"]}.
Proof.
  intros specs.
  destruct (get_data_transforms_keys (list string) Toy.default_transforms
              Toy.transforms 224 specs (Toy.by_phase specs) eq_refl)
    as (r & Hr & Hd).
  exists r. split; [exact Hr |].
  rewrite Hd. unfold Toy.default_transforms, specs. simpl.
  rewrite !dom_insert_L, !dom_empty_L. set_solver.
Defined.

(** ** The training loop, continued *)

Section LoopFacts.

Context {T B Out W : Type} `{!Torch T B Out W}.
Variable dataloaders : phase -> T -> list B * T.
Variable dataset_sizes : phase -> Z.
Variable is_inception : bool.

Local Abbreviation batch_pass := (batch_pass is_inception).
Local Abbreviation batch_step := (batch_step is_inception).
Local Abbreviation run_phase := (run_phase dataloaders dataset_sizes is_inception).
Local Abbreviation epoch := (epoch dataloaders dataset_sizes is_inception).
Local Abbreviation epochs := (epochs dataloaders dataset_sizes is_inception).
Local Abbreviation phase_batches := (phase_batches dataloaders).
Local Abbreviation phase_start := (phase_start dataloaders).
Local Abbreviation train_model :=
  (train_model dataloaders dataset_sizes is_inception).

Lemma run_phase_zero_size (ph : phase) (s : run T) :
  dataset_sizes ph = 0 -> run_phase ph s = Raise ZeroDivisionError.
Proof.
  intros E. rewrite run_phase_unfold. cbv zeta. rewrite E. reflexivity.
Qed.

Lemma run_phase_no_batch (ph : phase) (s : run T) :
  dataset_sizes ph <> 0 -> phase_batches ph s = [] ->
  run_phase ph s = Raise (AttributeError "double").
Proof.
  intros Hs Hb. rewrite run_phase_unfold. cbv zeta. rewrite Hb. simpl.
  destruct (Z.eqb_spec (dataset_sizes ph) 0); [contradiction | reflexivity].
Qed.

(** The first epoch's exception leaves [epochs] as it is. *)
Lemma epochs_first_raises (n : nat) (l : loop T W) (e : exn) :
  epoch l = Raise e -> epochs (S n) l = Raise e.
Proof. intros E. simpl. rewrite E. reflexivity. Qed.

Lemma epoch_train_raises (l : loop T W) (e : exn) :
  run_phase train (l_state l) = Raise e -> epoch l = Raise e.
Proof. intros E. rewrite epoch_unfold, E. reflexivity. Qed.

Local Abbreviation replay := (replay dataloaders).

(** The calls of one epoch, the snapshot it may take included. *)
Lemma epoch_actions (l l' : loop T W) :
  epoch l = Ok l' ->
  exists actions : list (action B W),
    calls (l_state l') = calls (l_state l) ++ map label actions
    /\ torch (l_state l') = replay actions (torch (l_state l))
    /\ count_occ event_eq_dec (map label actions) SchedulerStep = 1%nat
    /\ count_occ event_eq_dec (map label actions) (Iterate train) = 1%nat
    /\ count_occ event_eq_dec (map label actions) (Iterate test) = 1%nat
    /\ count_occ event_eq_dec (map label actions) (Iterate valid) = O
    /\ count_occ event_eq_dec (map label actions) LoadStateDict = O
    /\ (count_occ event_eq_dec (map label actions) Snapshot <= 1)%nat.
Proof.
  intros H.
  destruct (epoch_calls dataloaders dataset_sizes is_inception l l' H)
    as (s1 & r1 & snap & E1 & C).
  pose proof (epoch_torch dataloaders dataset_sizes is_inception l l' s1 r1
                H E1) as Ht.
  exists (([DoOptimizerStep; DoSchedulerStep; DoSetTrain; DoIterate train]
           ++ flat_map (train_batch_actions is_inception)
                (phase_batches train (l_state l))
           ++ [DoSetEval; DoIterate test]
           ++ flat_map eval_batch_actions (phase_batches test s1))
          ++ (if snap then [DoSnapshot] else [])).
  rewrite map_app. split; [| split].
  - rewrite C, !map_app, label_train_batches, label_eval_batches.
    rewrite <- !app_assoc. destruct snap; reflexivity.
  - rewrite Ht. unfold replay. destruct snap.
    + rewrite (fold_left_app _ _ [DoSnapshot]). reflexivity.
    + rewrite app_nil_r. reflexivity.
  - rewrite !map_app, label_train_batches, label_eval_batches.
    repeat split;
      rewrite !count_occ_app, !count_per_batch;
      destruct is_inception, snap; simpl; lia.
Qed.

(** The calls of [n] epochs. *)
Lemma epochs_actions (n : nat) (l l' : loop T W) :
  epochs n l = Ok l' ->
  exists actions : list (action B W),
    calls (l_state l') = calls (l_state l) ++ map label actions
    /\ torch (l_state l') = replay actions (torch (l_state l))
    /\ count_occ event_eq_dec (map label actions) SchedulerStep = n
    /\ count_occ event_eq_dec (map label actions) (Iterate train) = n
    /\ count_occ event_eq_dec (map label actions) (Iterate test) = n
    /\ count_occ event_eq_dec (map label actions) (Iterate valid) = O
    /\ count_occ event_eq_dec (map label actions) LoadStateDict = O
    /\ (count_occ event_eq_dec (map label actions) Snapshot <= n)%nat.
Proof.
  revert l. induction n as [| n IH]; intros l; simpl.
  - intros [= <-]. exists []. simpl. rewrite app_nil_r.
    repeat (split; [reflexivity |]). lia.
  - destruct (epoch l) as [l1 |] eqn:E; [| discriminate]. simpl. intros H.
    destruct (epoch_actions l l1 E)
      as (a1 & C1 & T1 & c1 & c2 & c3 & c4 & c5 & c6).
    destruct (IH l1 H) as (a2 & C2 & T2 & d1 & d2 & d3 & d4 & d5 & d6).
    exists (a1 ++ a2). rewrite map_app, !count_occ_app.
    split; [rewrite C2, C1, <- app_assoc; reflexivity |].
    split; [rewrite T2, T1; unfold replay; rewrite fold_left_app;
            reflexivity |].
    repeat split; lia.
Qed.

Lemma epochs_printed (n : nat) (l l' : loop T W) :
  epochs n l = Ok l' ->
  exists lines,
    printed l' = printed l ++ lines
    /\ length lines = n
    /\ Forall (fun line =>
                 exists r1 r2,
                   line = [r1; r2] /\ r_phase r1 = train /\ r_phase r2 = test)
         lines.
Proof.
  revert l. induction n as [| n IH]; intros l; simpl.
  - intros [= <-]. exists []. rewrite app_nil_r. repeat split. constructor.
  - destruct (epoch l) as [l1 |] eqn:E; [| discriminate]. simpl. intros H.
    destruct (epoch_inv dataloaders dataset_sizes is_inception l l1 E)
      as (s1 & r1 & s2 & r2 & E1 & E2 & Hl).
    destruct (run_phase_inv dataloaders dataset_sizes is_inception _ _ _ _ E1)
      as [(P1 & _) _].
    destruct (run_phase_inv dataloaders dataset_sizes is_inception _ _ _ _ E2)
      as [(P2 & _) _].
    destruct (IH l1 H) as (lines & Hp & Hlen & Hall).
    exists ([r1; r2] :: lines).
    assert (Hp1 : printed l1 = printed l ++ [[r1; r2]]).
    { rewrite Hl. destruct (Qgt_bool (r_acc r2) (best_acc l)); reflexivity. }
    rewrite Hp, Hp1, <- app_assoc. split; [reflexivity |].
    split; [simpl; congruence |].
    constructor; [| exact Hall]. exists r1, r2. repeat split; assumption.
Qed.

End LoopFacts.

(** Outside training the Inception flag plays no part. *)
Lemma batch_pass_eval {T B Out W : Type} `{!Torch T B Out W}
    (inc inc' : bool) (ph : phase) (s : run T) (b : B) :
  ph <> train -> batch_pass inc ph s b = batch_pass inc' ph s b.
Proof.
  intros Hne. unfold batch_pass, forward.
  destruct ph; [congruence | |]; simpl; rewrite !andb_false_r; reflexivity.
Qed.

Lemma fold_batch_eval {T B Out W : Type} `{!Torch T B Out W}
    (inc inc' : bool) (ph : phase) (batches : list B) (r : running T) :
  ph <> train ->
  fold_left (batch_step inc ph) batches r
  = fold_left (batch_step inc' ph) batches r.
Proof.
  intros Hne. revert r. induction batches as [| b bs IH]; intros r; simpl.
  - reflexivity.
  - rewrite IH. unfold batch_step.
    rewrite (batch_pass_eval inc inc' ph _ b Hne). reflexivity.
Qed.

(** X9: an evaluation pass does not depend on whether the model is
    taken for Inception v3: the auxiliary output and its loss term exist
    in the training phase only. *)
Theorem evaluation_ignores_inception_flag :
  forall (T B Out W : Type) (TC : Torch T B Out W)
         (dataloaders : phase -> T -> list B * T) (dataset_sizes : phase -> Z)
         (is_inception is_inception' : bool) (ph : phase) (s : run T),
    ph <> train ->
    run_phase dataloaders dataset_sizes is_inception ph s
    = run_phase dataloaders dataset_sizes is_inception' ph s.
Proof.
  intros T B Out W TC dl ds inc inc' ph s Hne.
  rewrite !run_phase_unfold. cbv zeta.
  rewrite (fold_batch_eval inc inc' ph _ _ Hne). reflexivity.
Qed.

Lemma evaluation_ignores_inception_flag_witness :
  run_phase (Torch0 := Toy.torch [7]) Toy.dataloaders Toy.dataset_sizes true
    test (mkRun 2%nat [])
  = Ok (mkRun 2%nat [SetEval; Iterate test; ZeroGrad; Forward false],
        mkResult test (10 # 20) (7 # 10)).
Proof.
  rewrite (evaluation_ignores_inception_flag nat Z nat nat (Toy.torch [7])
             Toy.dataloaders Toy.dataset_sizes true false test
             (mkRun 2%nat []) ltac:(discriminate)).
  vm_compute. reflexivity.
Defined.

(** X10: a run of [n] epochs that returns has put the library state
    through a sequence of calls, of which the recorded events are the
    labels: after the first snapshot, [n] scheduler steps and [n]
    iterations each of the train and of the test loader, none of the
    valid loader, at most one further snapshot per epoch, and last the
    loading of the best weights, once. *)
Theorem train_model_calls :
  forall (T B Out W : Type) (TC : Torch T B Out W)
         (dataloaders : phase -> T -> list B * T) (dataset_sizes : phase -> Z)
         (is_inception : bool) (model : T) (num_epochs : Z) (l : loop T W),
    train_model dataloaders dataset_sizes is_inception model num_epochs = Ok l ->
    exists actions : list (action B W),
      let events := map label actions in
      torch (l_state l)
      = model_load_state_dict (best_model_wts l)
          (replay dataloaders actions model)
      /\ calls (l_state l) = Snapshot :: events ++ [LoadStateDict]
      /\ count_occ event_eq_dec events SchedulerStep = Z.to_nat num_epochs
      /\ count_occ event_eq_dec events (Iterate train) = Z.to_nat num_epochs
      /\ count_occ event_eq_dec events (Iterate test) = Z.to_nat num_epochs
      /\ count_occ event_eq_dec events (Iterate valid) = O
      /\ count_occ event_eq_dec events LoadStateDict = O
      /\ (count_occ event_eq_dec events Snapshot <= Z.to_nat num_epochs)%nat.
Proof.
  intros T B Out W TC dl ds inc model n l H.
  unfold train_model in H.
  destruct (epochs dl ds inc (Z.to_nat n) (start model)) as [l_end |] eqn:E;
    [| discriminate H].
  simpl in H. injection H as <-.
  destruct (epochs_actions dl ds inc _ _ _ E) as (actions & C & Ht & R).
  exists actions. cbv zeta. simpl.
  split; [rewrite Ht; reflexivity |].
  split; [rewrite C; reflexivity | exact R].
Qed.

Lemma train_model_calls_witness :
  exists l,
    train_model (Torch0 := Recorder.torch) Recorder.dataloaders
      Recorder.dataset_sizes false [] 2 = Ok l
    /\ count_occ event_eq_dec (torch (l_state l)) SchedulerStep = 2%nat
    /\ count_occ event_eq_dec (torch (l_state l)) OptimizerStep = 8%nat
    /\ count_occ event_eq_dec (torch (l_state l)) (Iterate valid) = O
    /\ last (torch (l_state l)) = Some LoadStateDict.
Proof.
  destruct (train_model (Torch0 := Recorder.torch) Recorder.dataloaders
              Recorder.dataset_sizes false [] 2) as [l |] eqn:E;
    [| vm_compute in E; discriminate E].
  exists l. split; [reflexivity |].
  destruct (train_model_calls (list event) Z unit (list event) Recorder.torch
              Recorder.dataloaders Recorder.dataset_sizes false [] 2 l E)
    as (actions & Ht & _).
  vm_compute in E. injection E as <-.
  repeat split; reflexivity.
Defined.

(** X11: a run that returns has printed one line per epoch, each with
    the result of the training phase followed by that of the test
    phase. *)
Theorem train_model_prints_one_line_per_epoch :
  forall (T B Out W : Type) (TC : Torch T B Out W)
         (dataloaders : phase -> T -> list B * T) (dataset_sizes : phase -> Z)
         (is_inception : bool) (model : T) (num_epochs : Z) (l : loop T W),
    train_model dataloaders dataset_sizes is_inception model num_epochs = Ok l ->
    length (printed l) = Z.to_nat num_epochs
    /\ Forall (fun line =>
                 exists r1 r2,
                   line = [r1; r2] /\ r_phase r1 = train /\ r_phase r2 = test)
         (printed l).
Proof.
  intros T B Out W TC dl ds inc model n l H.
  unfold train_model in H.
  destruct (epochs dl ds inc (Z.to_nat n) (start model)) as [l_end |] eqn:E;
    [| discriminate H].
  simpl in H. injection H as <-. simpl.
  destruct (epochs_printed dl ds inc _ _ _ E) as (lines & P & Hlen & Hall).
  simpl in P. rewrite P. split; assumption.
Qed.

Lemma train_model_prints_one_line_per_epoch_witness :
  exists l,
    Toy.train [5; 7] 2 = Ok l /\ length (printed l) = 2%nat.
Proof.
  destruct (Toy.train [5; 7] 2) as [l |] eqn:E;
    [| vm_compute in E; discriminate E].
  exists l. split; [reflexivity |].
  exact (proj1 (train_model_prints_one_line_per_epoch nat Z nat nat
                  (Toy.torch [5; 7]) Toy.dataloaders Toy.dataset_sizes false
                  O 2 l E)).
Defined.

(** X12: with an epoch count of zero or less nothing is trained or
    evaluated, whatever the loaders and the dataset sizes: the model
    returned has the weights it came with loaded back, the best accuracy
    is 0 and nothing is printed. *)
Theorem train_model_without_epochs :
  forall (T B Out W : Type) (TC : Torch T B Out W)
         (dataloaders : phase -> T -> list B * T) (dataset_sizes : phase -> Z)
         (is_inception : bool) (model : T) (num_epochs : Z),
    num_epochs <= 0 ->
    train_model dataloaders dataset_sizes is_inception model num_epochs
    = Ok (mkLoop
            (mkRun (model_load_state_dict (model_state_dict model) model)
               [Snapshot; LoadStateDict])
            0%Q (model_state_dict model) []).
Proof.
  intros T B Out W TC dl ds inc model n H.
  unfold train_model. replace (Z.to_nat n) with O by lia. reflexivity.
Qed.

Lemma train_model_without_epochs_witness :
  match Toy.train [] (-3) with
  | Ok l => calls (l_state l) = [Snapshot; LoadStateDict]
  | Raise _ => False
  end.
Proof.
  unfold Toy.train.
  rewrite (train_model_without_epochs nat Z nat nat (Toy.torch [])
             Toy.dataloaders Toy.dataset_sizes false O (-3) ltac:(lia)).
  reflexivity.
Defined.

(** X13: the best accuracy never decreases from one epoch to the next,
    and at the end of a run it is at least 0. *)
Theorem best_acc_never_decreases :
  forall (T B Out W : Type) (TC : Torch T B Out W)
         (dataloaders : phase -> T -> list B * T) (dataset_sizes : phase -> Z)
         (is_inception : bool),
    (forall (n : nat) (l l' : loop T W),
        epochs dataloaders dataset_sizes is_inception n l = Ok l' ->
        (best_acc l <= best_acc l')%Q)
    /\ (forall (model : T) (num_epochs : Z) (l : loop T W),
          train_model dataloaders dataset_sizes is_inception model num_epochs
          = Ok l ->
          (0 <= best_acc l)%Q).
Proof.
  intros T B Out W TC dl ds inc.
  assert (M : forall (n : nat) (l l' : loop T W),
             epochs dl ds inc n l = Ok l' -> (best_acc l <= best_acc l')%Q).
  { intros n l l' H.
    destruct (epochs_best dl ds inc n l l' H) as (h & _ & _ & Hb).
    destruct (best_of_spec h (best l)) as (Hge & _).
    rewrite <- Hb in Hge. exact Hge. }
  split; [exact M |].
  intros model n l H.
  destruct (train_model_inv dl ds inc model n l H) as (l_end & E & Hb & _).
  apply M in E. simpl in E.
  assert (Ha : best_acc l = best_acc l_end).
  { unfold best in Hb. congruence. }
  rewrite Ha. exact E.
Qed.

Lemma best_acc_never_decreases_witness :
  exists l,
    Toy.train [5; 7; 6] 3 = Ok l /\ (0 <= best_acc l)%Q.
Proof.
  destruct (Toy.train [5; 7; 6] 3) as [l |] eqn:E;
    [| vm_compute in E; discriminate E].
  exists l. split; [reflexivity |].
  exact (proj2 (best_acc_never_decreases nat Z nat nat (Toy.torch [5; 7; 6])
                  Toy.dataloaders Toy.dataset_sizes false) O 3 l E).
Defined.

(** X14: a phase whose loader yields no batch raises:
    [ZeroDivisionError] when its dataset size is 0, and [AttributeError]
    otherwise, because the count of correct predictions is then still
    the integer it started as. *)
Theorem run_phase_raises_on_empty_input :
  forall (T B Out W : Type) (TC : Torch T B Out W)
         (dataloaders : phase -> T -> list B * T) (dataset_sizes : phase -> Z)
         (is_inception : bool) (ph : phase) (s : run T),
    phase_batches dataloaders ph s = [] ->
    (dataset_sizes ph = 0 ->
     run_phase dataloaders dataset_sizes is_inception ph s
     = Raise ZeroDivisionError)
    /\ (dataset_sizes ph <> 0 ->
        run_phase dataloaders dataset_sizes is_inception ph s
        = Raise (AttributeError "double")).
Proof.
  intros T B Out W TC dl ds inc ph s Hb.
  split; [apply run_phase_zero_size |].
  intros Hs. apply run_phase_no_batch; assumption.
Qed.

Lemma run_phase_raises_on_empty_input_witness :
  run_phase (Torch0 := Toy.torch []) (fun _ t => ([], t)) (fun _ => 0) false
    train (mkRun O [])
  = Raise ZeroDivisionError
  /\ run_phase (Torch0 := Toy.torch []) (fun _ t => ([], t)) (fun _ => 10)
       false train (mkRun O [])
     = Raise (AttributeError "double").
Proof.
  split.
  - exact (proj1 (run_phase_raises_on_empty_input nat Z nat nat (Toy.torch [])
                    (fun _ t => ([], t)) (fun _ => 0) false train
                    (mkRun O []) eq_refl)
             eq_refl).
  - exact (proj2 (run_phase_raises_on_empty_input nat Z nat nat (Toy.torch [])
                    (fun _ t => ([], t)) (fun _ => 10) false train
                    (mkRun O []) eq_refl)
             ltac:(discriminate)).
Defined.

(** X15: an exception raised by the training phase of the first epoch
    leaves [train_model] as it is, so no model is returned; an empty
    training set makes that a [ZeroDivisionError]. *)
Theorem train_model_raises_with_first_phase :
  forall (T B Out W : Type) (TC : Torch T B Out W)
         (dataloaders : phase -> T -> list B * T) (dataset_sizes : phase -> Z)
         (is_inception : bool) (model : T) (num_epochs : Z),
    0 < num_epochs ->
    (forall e,
        run_phase dataloaders dataset_sizes is_inception train
          (l_state (start model)) = Raise e ->
        train_model dataloaders dataset_sizes is_inception model num_epochs
        = Raise e)
    /\ (dataset_sizes train = 0 ->
        train_model dataloaders dataset_sizes is_inception model num_epochs
        = Raise ZeroDivisionError).
Proof.
  intros T B Out W TC dl ds inc model n Hn.
  assert (R : forall e,
             run_phase dl ds inc train (l_state (start model)) = Raise e ->
             train_model dl ds inc model n = Raise e).
  { intros e E. unfold train_model.
    destruct (Z.to_nat n) as [| k] eqn:Ek; [lia |].
    rewrite (epochs_first_raises dl ds inc k _ e
               (epoch_train_raises dl ds inc _ e E)).
    reflexivity. }
  split; [exact R |].
  intros Hz. apply R. apply run_phase_zero_size. exact Hz.
Qed.

Lemma train_model_raises_with_first_phase_witness :
  train_model (Torch0 := Toy.torch []) Toy.dataloaders
    (fun ph => if phase_eqb ph train then 0 else 10) false O 3
  = Raise ZeroDivisionError.
Proof.
  exact (proj2 (train_model_raises_with_first_phase nat Z nat nat
                  (Toy.torch []) Toy.dataloaders
                  (fun ph => if phase_eqb ph train then 0 else 10) false O 3
                  ltac:(lia))
           eq_refl).
Defined.

(** ** Freezing *)

(** Induction over the objects of a model, with the hypothesis for every
    child. *)
Lemma obj_induction (P : obj -> Prop)
    (HLinear : forall i w p, P (Linear i w p))
    (HConv : forall i w p, P (Conv2d i w p))
    (HFeatures : forall p, P (Features p))
    (HOp : forall name, P (Op name))
    (HInt : forall z, P (Int z))
    (HSeq : forall children, Forall P children -> P (Sequential children))
    (HNet : forall cls attrs,
        Forall (fun kv => P kv.2) attrs -> P (Net cls attrs)) :
  forall o, P o.
Proof.
  fix IH 1. intros [i w p | i w p | p | name | z | children | cls attrs].
  - apply HLinear.
  - apply HConv.
  - apply HFeatures.
  - apply HOp.
  - apply HInt.
  - apply HSeq. induction children as [| c cs IHcs]; constructor.
    + apply IH.
    + exact IHcs.
  - apply HNet. induction attrs as [| [k v] attrs IHattrs]; constructor.
    + apply IH.
    + exact IHattrs.
Qed.

(** X16: after [set_parameter_requires_grad(model, True)] no parameter
    of the model, at any depth, receives gradients; with [False] the
    model is left as it is. *)
Theorem set_parameter_requires_grad_freezes_all :
  forall model : obj,
    Forall (fun l => layer_requires_grad l = false)
      (parameters (set_parameter_requires_grad model true))
    /\ set_parameter_requires_grad model false = model.
Proof.
  intros model. split; [| reflexivity].
  unfold set_parameter_requires_grad.
  induction model using obj_induction; simpl;
    try (repeat constructor; fail).
  - induction H as [| c cs Hc _ IH]; simpl; [constructor |].
    apply Forall_app. split; assumption.
  - induction H as [| [k v] attrs Hv _ IH]; simpl; [constructor |].
    apply Forall_app. split; assumption.
Qed.
